(** * gpu-programming: the OpenCL vector-add benchmark and its companions

    A shallow embedding of
      - [opencl/vector_add/add.cpp] and its kernel file [add.cl],
      - the device-information program and the hello-world program,
      - the CUDA hello program,
    followed by the properties of the benchmark.

    Conventions.
      - [int] is a 32-bit two's complement integer, kept as a [Z] that every
        arithmetic operation wraps back into range;
      - host memory is a map from blocks to cell lists, an [int*] is a block
        and an offset, and an access outside its block is undefined;
      - a C++ function is a state transformer that returns normally ([Ret]),
        terminates the process through [exit] ([Exit]), or has no defined
        behaviour ([Undef]);
      - [double] is IEEE 754 binary64 as specified by [SpecFloat];
      - the OpenCL runtime is modelled as far as the programs use it; as the
        sources include [CL/cl.hpp] without enabling exceptions and never
        inspect a status (except that of [build]), a failed call leaves a
        null object behind and the program carries on. *)

From Stdlib Require Import ZArith SpecFloat.
From stdpp Require Import base gmap list strings.

Local Open Scope Z_scope.

(** ** 32-bit and 64-bit integers *)

Definition wrap (bits : Z) (z : Z) : Z :=
  (z + 2 ^ (bits - 1)) mod 2 ^ bits - 2 ^ (bits - 1).

Definition INT_MIN : Z := - 2 ^ 31.
Definition INT_MAX : Z := 2 ^ 31 - 1.

(** [a + b] on two [int]s. *)
Definition int_add (x y : Z) : Z := wrap 32 (x + y).

(** [end - start] on two [clock_t] (a 64-bit [long]). *)
Definition long_sub (x y : Z) : Z := wrap 64 (x - y).

(** [N * sizeof(int)]: [N] is converted to [size_t] (64 bits, unsigned). *)
Definition size_of_ints (N : Z) : Z := (N * 4) mod 2 ^ 64.

(** ** Doubles *)

Definition prec : Z := 53.
Definition emax : Z := 1024.

Definition double := spec_float.

Definition double_of_Z (z : Z) : double := binary_normalize prec emax z 0 false.
Definition dmul : double -> double -> double := SFmul prec emax.
Definition dsub : double -> double -> double := SFsub prec emax.
Definition ddiv : double -> double -> double := SFdiv prec emax.

Definition is_zero (d : double) : bool :=
  match d with S754_zero _ => true | _ => false end.

Definition is_finite (d : double) : bool :=
  match d with S754_zero _ | S754_finite _ _ _ => true | _ => false end.

(** ** Host memory *)

Record ptr := Ptr { pblock : nat; poff : Z }.

Abbreviation heap := (gmap nat (list Z)).

(** [p[i]] as an rvalue. *)
Definition load (h : heap) (p : ptr) (i : Z) : option Z :=
  match h !! pblock p with
  | Some cells =>
      if decide (0 <= poff p + i) then cells !! Z.to_nat (poff p + i) else None
  | None => None
  end.

(** [p[i] = v]. *)
Definition store (h : heap) (p : ptr) (i : Z) (v : Z) : option heap :=
  match h !! pblock p with
  | Some cells =>
      if decide (0 <= poff p + i < Z.of_nat (length cells))
      then Some (<[pblock p := <[Z.to_nat (poff p + i) := v]> cells]> h)
      else None
  | None => None
  end.

(** ** The compute platform *)

(** What the programs ask a device for. *)
Record Device := {
  name : string;
  vendor : string;
  version : string;
  workItems : list Z;
  workGroups : Z;
  computeUnits : Z;
  globalMemory : Z;
  localMemory : Z;
  maxMemAlloc : Z
}.

Record Platform := { devices : list Device }.

(** Device memory objects hold cells; a kernel is the code one work-item
    runs, given the buffers bound to its arguments and its global id. *)
Abbreviation buffer := (list Z).
Definition Kernel := list buffer -> Z -> option (list buffer).
Definition Program := list (string * Kernel).

(** What a stream has received through [<<]. *)
Inductive item :=
| Str (s : string)
| Int (z : Z)
| Dbl (d : double)
| Chars (cs : list Z)
| Endl.

(** Everything outside the process. *)
Record World := {
  platforms : list Platform;          (* cl::Platform::get *)
  build_status : Z;                   (* what program.build() returns *)
  build_info_status : Z;              (* CL_PROGRAM_BUILD_STATUS *)
  build_log : string;                 (* CL_PROGRAM_BUILD_LOG *)
  fresh_mem : nat -> Z -> Z;          (* cell [i] of the [n]-th new buffer *)
  schedule : Z -> list Z;             (* order in which work-items run *)
  stack_mem : Z -> Z;                 (* what an uninitialised local holds *)
  hello_cl : Program;                 (* hello.cl, once compiled *)
  CLOCKS_PER_SEC : Z
}.

(** ** Process state *)

Record State := {
  host : heap;
  next_block : nat;
  cout : list item;
  cerr : list item;
  ticks : list Z;                     (* what clock() will return *)
  created : nat;                      (* device buffers created so far *)
  devmem : gmap nat buffer;           (* device memory, by buffer handle *)
  (* the globals of add.cpp *)
  program : option Program;
  context : option Device;
  device : option Device
}.

Inductive result (A : Type) :=
| Ret (a : A) (s : State)
| Exit (code : Z) (s : State)
| Undef.
Arguments Ret {A} a s.
Arguments Exit {A} code s.
Arguments Undef {A}.

Definition M (A : Type) := State -> result A.

Definition ret {A} (a : A) : M A := fun s => Ret a s.

Definition bind {A B} (m : M A) (k : A -> M B) : M B :=
  fun s =>
    match m s with
    | Ret a s' => k a s'
    | Exit code s' => Exit code s'
    | Undef => Undef
    end.

Declare Scope proc_scope.
Delimit Scope proc_scope with proc.
Notation "x <- m ;; k" := (bind m (fun x => k))
  (at level 100, m at next level, right associativity) : proc_scope.
Notation "m ;; k" := (bind m (fun _ => k))
  (at level 100, right associativity) : proc_scope.
Local Open Scope proc_scope.

Definition get : M State := fun s => Ret s s.
Definition undefined {A} : M A := fun _ => Undef.
Definition exit {A} (code : Z) : M A := fun s => Exit code s.

Definition set_host (h : heap) (s : State) : State :=
  {| host := h; next_block := next_block s; cout := cout s; cerr := cerr s;
     ticks := ticks s; created := created s; devmem := devmem s;
     program := program s; context := context s; device := device s |}.

Definition read (p : ptr) (i : Z) : M Z :=
  fun s => match load (host s) p i with Some v => Ret v s | None => Undef end.

Definition write (p : ptr) (i : Z) (v : Z) : M unit :=
  fun s => match store (host s) p i v with
           | Some h => Ret tt (set_host h s)
           | None => Undef
           end.

(** [for (int i = i0; i < N; i++) body], entered with [n] iterations left;
    a body that yields [Some r] has executed [return r]. *)
Fixpoint for_loop {R} (n : nat) (i : Z) (body : Z -> M (option R)) : M (option R) :=
  match n with
  | O => ret None
  | S n' =>
      r <- body i;;
      match r with
      | Some v => ret (Some v)
      | None => for_loop n' (i + 1) body
      end
  end.

(** Number of times the condition [i < N] holds when [i] counts up from 0. *)
Definition trip_count (N : Z) : nat := Z.to_nat N.

(** ** add.cpp: the two host-side array functions *)

(** sequentially performs the N-dimensional operation c = a + b *)
Definition seqSumArrays (a b c : ptr) (N : Z) : M unit :=
  for_loop (R := Empty_set) (trip_count N) 0
    (fun i => x <- read a i;; y <- read b i;; write c i (int_add x y);; ret None);;
  ret tt.

(** check if the N-dimensional arrays c1 and c2 are equal *)
Definition checkEquality (c1 c2 : ptr) (N : Z) : M bool :=
  r <- for_loop (trip_count N) 0
         (fun i => x <- read c1 i;; y <- read c2 i;;
                   if decide (x <> y) then ret (Some false) else ret None);;
  match r with
  | Some v => ret v
  | None => ret true
  end.

(** ** The OpenCL runtime, as far as the programs use it *)

Definition CL_BUILD_SUCCESS : Z := 0.

Definition cout_put (i : item) : M unit :=
  fun s => Ret tt
    {| host := host s; next_block := next_block s; cout := cout s ++ [i];
       cerr := cerr s; ticks := ticks s; created := created s; devmem := devmem s;
       program := program s; context := context s; device := device s |}.

Definition cerr_put (i : item) : M unit :=
  fun s => Ret tt
    {| host := host s; next_block := next_block s; cout := cout s;
       cerr := cerr s ++ [i]; ticks := ticks s; created := created s;
       devmem := devmem s;
       program := program s; context := context s; device := device s |}.

Definition set_devmem (d : gmap nat buffer) (s : State) : State :=
  {| host := host s; next_block := next_block s; cout := cout s; cerr := cerr s;
     ticks := ticks s; created := created s; devmem := d;
     program := program s; context := context s; device := device s |}.

(** [std::vector<int> v(n, x)]: a new block of [n] cells holding [x]. *)
Definition vector_new (n : Z) (x : Z) : M ptr :=
  fun s =>
    if decide (0 <= n) then
      Ret (Ptr (next_block s) 0)
        {| host := <[next_block s := replicate (Z.to_nat n) x]> (host s);
           next_block := S (next_block s); cout := cout s; cerr := cerr s;
           ticks := ticks s; created := created s; devmem := devmem s;
           program := program s; context := context s; device := device s |}
    else Undef.

(** [clock()]: the next reading, or -1 when the processor time is not
    available. *)
Definition clock : M Z :=
  fun s =>
    Ret (match ticks s with t :: _ => t | [] => -1 end)
      {| host := host s; next_block := next_block s; cout := cout s;
         cerr := cerr s; ticks := tail (ticks s); created := created s;
         devmem := devmem s;
         program := program s; context := context s; device := device s |}.

(** [n] cells read from host memory at [p[i]], [p[i+1]], ... *)
Fixpoint read_cells (n : nat) (p : ptr) (i : Z) : M (list Z) :=
  match n with
  | O => ret []
  | S n' => v <- read p i;; vs <- read_cells n' p (i + 1);; ret (v :: vs)
  end.

(** The cells [vs] written to host memory at [p[i]], [p[i+1]], ... *)
Fixpoint write_cells (vs : list Z) (p : ptr) (i : Z) : M unit :=
  match vs with
  | [] => ret tt
  | v :: vs' => write p i v;; write_cells vs' p (i + 1)
  end.

Section Runtime.
Variable w : World.

(** A [cl::Buffer] is a handle into device memory, or null. Creation fails
    (and the handle stays null) without a context, for a size of 0 and for a
    size above the device's limit. [width] is the size in bytes of one cell. *)
Definition buffer_size_ok (ctx : option Device) (size : Z) : bool :=
  match ctx with
  | Some dev => bool_decide (0 < size <= maxMemAlloc dev)
  | None => false
  end.

Definition register_buffer (cells : buffer) : M (option nat) :=
  fun s =>
    Ret (Some (created s))
      {| host := host s; next_block := next_block s; cout := cout s;
         cerr := cerr s; ticks := ticks s; created := S (created s);
         devmem := <[created s := cells]> (devmem s);
         program := program s; context := context s; device := device s |}.

(** [cl::Buffer(ctx, ... | CL_MEM_COPY_HOST_PTR, size, p)] *)
Definition Buffer_copy (ctx : option Device) (size width : Z) (p : ptr)
  : M (option nat) :=
  if buffer_size_ok ctx size then
    cells <- read_cells (Z.to_nat (size / width)) p 0;;
    register_buffer cells
  else ret None.

(** [cl::Buffer(ctx, flags, size)]: the contents are whatever the device
    memory holds. *)
Definition Buffer_new (ctx : option Device) (size width : Z) : M (option nat) :=
  if buffer_size_ok ctx size then
    s <- get;;
    register_buffer
      (map (fun i => wrap (8 * width) (fresh_mem w (created s) i))
           (seqZ 0 (size / width)))
  else ret None.

(** The destructor of a [cl::Buffer]. *)
Definition Buffer_release (b : option nat) : M unit :=
  fun s =>
    match b with
    | Some hd => Ret tt (set_devmem (delete hd (devmem s)) s)
    | None => Ret tt s
    end.

(** [cl::Kernel(program, name)]: null unless the built program defines a
    kernel of that name. *)
Definition Kernel_create (p : option Program) (kname : string) : option Kernel :=
  match p with
  | Some kernels => snd <$> find (fun k => bool_decide (fst k = kname)) kernels
  | None => None
  end.

(** [cl::CommandQueue(ctx, dev)]: null unless both are there. *)
Definition CommandQueue (ctx dev : option Device) : option Device :=
  match ctx with Some _ => dev | None => None end.

(** The buffers behind the kernel arguments; a null argument cannot be
    dereferenced. *)
Definition fetch_args (d : gmap nat buffer) (args : list (option nat))
  : option (list buffer) :=
  mapM (fun a => match a with Some hd => d !! hd | None => None end) args.

Fixpoint store_args (args : list (option nat)) (bufs : list buffer)
    (d : gmap nat buffer) : gmap nat buffer :=
  match args, bufs with
  | Some hd :: args', cells :: bufs' => store_args args' bufs' (<[hd := cells]> d)
  | _, _ => d
  end.

(** The work-items with the global ids [ids] run one after another. *)
Fixpoint run_items (k : Kernel) (ids : list Z) (bufs : list buffer)
  : option (list buffer) :=
  match ids with
  | [] => Some bufs
  | id :: ids' =>
      match k bufs id with
      | Some bufs' => run_items k ids' bufs'
      | None => None
      end
  end.

(** The kernel [k], with [args] bound through [setArg], is run for the
    global ids [ids]. Nothing is enqueued for a null kernel or on a null
    queue. *)
Definition enqueue_items (queue : option Device) (k : option Kernel)
    (args : list (option nat)) (ids : list Z) : M unit :=
  fun s =>
    match queue, k, ids with
    | Some _, Some body, _ :: _ =>
        match fetch_args (devmem s) args with
        | Some bufs =>
            match run_items body ids bufs with
            | Some bufs' => Ret tt (set_devmem (store_args args bufs' (devmem s)) s)
            | None => Undef
            end
        | None => Undef
        end
    | _, _, _ => Ret tt s
    end.

(** [queue.enqueueNDRangeKernel(kernel, cl::NullRange, cl::NDRange(N))] *)
Definition enqueueNDRangeKernel (queue : option Device) (k : option Kernel)
    (args : list (option nat)) (N : Z) : M unit :=
  enqueue_items queue k args (schedule w N).

(** [queue.enqueueTask(kernel)]: a single work-item. *)
Definition enqueueTask (queue : option Device) (k : option Kernel)
    (args : list (option nat)) : M unit :=
  enqueue_items queue k args [0].

(** [queue.enqueueReadBuffer(buf, CL_TRUE, 0, size, p)]: nothing is read
    from a null buffer or through a null queue. *)
Definition enqueueReadBuffer (queue : option Device) (b : option nat)
    (size width : Z) (p : ptr) : M unit :=
  s <- get;;
  match queue, b with
  | Some _, Some hd =>
      match devmem s !! hd with
      | Some cells =>
          if decide (0 < size <= width * Z.of_nat (length cells))
          then write_cells (take (Z.to_nat (size / width)) cells) p 0
          else ret tt
      | None => ret tt
      end
  | _, _ => ret tt
  end.

(** ** add.cl *)

Definition add : Kernel :=
  fun args gid =>
    let idx := wrap 32 gid in
    match args with
    | [a; b; c] =>
        if decide (0 <= idx) then
          match a !! Z.to_nat idx, b !! Z.to_nat idx with
          | Some x, Some y =>
              if decide (Z.to_nat idx < length c)%nat
              then Some [a; b; <[Z.to_nat idx := int_add x y]> c]
              else None
          | _, _ => None
          end
        else None
    | _ => None
    end.

(** The program object that building the text of add.cl yields. *)
Definition add_cl : Program := [("add"%string, add)].

(** ** add.cpp *)

Definition TAB : string := String (Ascii.ascii_of_nat 9) "".
Definition LF : string := String (Ascii.ascii_of_nat 10) "".

Definition set_globals (p : option Program) (c d : option Device) : M unit :=
  fun s => Ret tt
    {| host := host s; next_block := next_block s; cout := cout s;
       cerr := cerr s; ticks := ticks s; created := created s;
       devmem := devmem s; program := p; context := c; device := d |}.

(** return the first device found in this OpenCL platform *)
Definition getDefaultDevice : M Device :=
  match platforms w with
  | [] => cerr_put (Str "no platforms found!");; cerr_put Endl;; exit 1
  | platform :: _ =>
      match devices platform with
      | [] => cerr_put (Str "no devices found!");; cerr_put Endl;; exit 1
      | dev :: _ => ret dev
      end
  end.

(** [program.build()], then the test of its status and the two lines of
    diagnostics; shared by add.cpp and the hello-world program. *)
Definition build_failed : bool := bool_decide (build_status w <> CL_BUILD_SUCCESS).

Definition report_build_failure : M unit :=
  cerr_put (Str ("build status:" +:+ TAB +:+ " "));;
  cerr_put (Int (build_info_status w));; cerr_put Endl;;
  cerr_put (Str ("build log   :" +:+ TAB +:+ " "));;
  cerr_put (Str (build_log w));; cerr_put Endl;;
  exit 1.

(** inicialize device and compile kernel code *)
Definition initializeDevice : M unit :=
  dev <- getDefaultDevice;;
  s <- get;;
  set_globals (program s) (context s) (Some dev);;
  set_globals (Some []) (Some dev) (Some dev);;
  (if build_failed then report_build_failure
   else set_globals (Some add_cl) (Some dev) (Some dev)).

(** parallelly performs the N-dimensional operation c = a + b

    The three calls of [setArg] bind [args] to the kernel; on a null kernel
    they fail like every later use of it. *)
Definition parSumArrays (a b c : ptr) (N : Z) : M unit :=
  s <- get;;
  aBuf <- Buffer_copy (context s) (size_of_ints N) 4 a;;
  bBuf <- Buffer_copy (context s) (size_of_ints N) 4 b;;
  cBuf <- Buffer_new (context s) (size_of_ints N) 4;;
  let kernel := Kernel_create (program s) "sumArrays" in
  let args := [aBuf; bBuf; cBuf] in
  let queue := CommandQueue (context s) (device s) in
  enqueueNDRangeKernel queue kernel args N;;
  enqueueReadBuffer queue cBuf (size_of_ints N) 4 c;;
  Buffer_release cBuf;; Buffer_release bBuf;; Buffer_release aBuf.

Definition EXECUTIONS : Z := 10.

(** [((double) 10e3 * (end - start)) / CLOCKS_PER_SEC / EXECUTIONS] *)
Definition mean_time (start end_ : Z) : double :=
  ddiv (ddiv (dmul (double_of_Z 10000) (double_of_Z (long_sub end_ start)))
             (double_of_Z (CLOCKS_PER_SEC w)))
       (double_of_Z EXECUTIONS).

(** [100 * (seqTime - parTime) / parTime] *)
Definition performance_gain (seqTime parTime : double) : double :=
  ddiv (dmul (double_of_Z 100) (dsub seqTime parTime)) parTime.

Definition repeat_call (times : Z) (call : M unit) : M unit :=
  for_loop (R := Empty_set) (trip_count times) 0 (fun _ => call;; ret None);;
  ret tt.

(** The body of [main]; the local [ARRAYS_DIM] is a parameter, so that
    the benchmark can also be studied on short arrays. *)
Definition benchmark (ARRAYS_DIM : Z) : M Z :=
  a <- vector_new ARRAYS_DIM 3;;
  b <- vector_new ARRAYS_DIM 5;;
  cs <- vector_new ARRAYS_DIM 0;;
  cp <- vector_new ARRAYS_DIM 0;;
  start <- clock;;
  repeat_call EXECUTIONS (seqSumArrays a b cs ARRAYS_DIM);;
  end_ <- clock;;
  let seqTime := mean_time start end_ in
  initializeDevice;;
  start <- clock;;
  repeat_call EXECUTIONS (parSumArrays a b cp ARRAYS_DIM);;
  end_ <- clock;;
  let parTime := mean_time start end_ in
  equal <- checkEquality cs cp ARRAYS_DIM;;
  cout_put (Str "status: ");;
  cout_put (Str (if equal : bool then "SUCCESS!" else "FAILED!"));;
  cout_put Endl;;
  a0 <- read a 0;; b0 <- read b 0;; cp0 <- read cp 0;;
  cout_put (Str ("results: " +:+ LF +:+ TAB +:+ "a[0] = "));;
  cout_put (Int a0);;
  cout_put (Str (LF +:+ TAB +:+ "b[0] = "));;
  cout_put (Int b0);;
  cout_put (Str (LF +:+ TAB +:+ "c[0] = a[0] + b[0] = "));;
  cout_put (Int cp0);;
  cout_put Endl;;
  cout_put (Str ("mean execution time: " +:+ LF +:+ TAB +:+ "sequential: "));;
  cout_put (Dbl seqTime);;
  cout_put (Str (" ms;" +:+ LF +:+ TAB +:+ "parallel: "));;
  cout_put (Dbl parTime);;
  cout_put (Str " ms.");;
  cout_put Endl;;
  cout_put (Str "performance gain: ");;
  cout_put (Dbl (performance_gain seqTime parTime));;
  cout_put (Str ("%" +:+ LF));;
  ret 0.

Definition ARRAYS_DIM : Z := Z.shiftl 1 20.

Definition main : M Z := benchmark ARRAYS_DIM.

End Runtime.

(** ** The device-information program *)

Module DeviceInfo.
Section DeviceInfo.
Variable w : World.

(** [v[i]] on a [std::vector]. *)
Definition at_index (v : list Z) (i : nat) : M Z :=
  match v !! i with Some x => ret x | None => undefined end.

(** [x / y] on unsigned integers. *)
Definition udiv (x y : Z) : M Z :=
  if decide (y = 0) then undefined else ret (Z.quot x y).

Definition print_info (dev : Device) : M unit :=
  w0 <- at_index (workItems dev) 0;;
  w1 <- at_index (workItems dev) 1;;
  w2 <- at_index (workItems dev) 2;;
  perUnit <- udiv (localMemory dev) (computeUnits dev);;
  cout_put (Str "OpenCL device info:");;
  cout_put (Str (" " +:+ LF +:+ " name: "));; cout_put (Str (name dev));;
  cout_put (Str (" " +:+ LF +:+ " vendor: "));; cout_put (Str (vendor dev));;
  cout_put (Str (" " +:+ LF +:+ " version: "));; cout_put (Str (version dev));;
  cout_put (Str (" " +:+ LF +:+ " max size of work-items: ("));;
  cout_put (Int w0);; cout_put (Str ",");;
  cout_put (Int w1);; cout_put (Str ",");;
  cout_put (Int w2);; cout_put (Str ")");;
  cout_put (Str (" " +:+ LF +:+ " max size of work-groups: "));;
  cout_put (Int (workGroups dev));;
  cout_put (Str (" " +:+ LF +:+ " number of compute units: "));;
  cout_put (Int (computeUnits dev));;
  cout_put (Str (" " +:+ LF +:+ " nlobal memory size (bytes): "));;
  cout_put (Int (globalMemory dev));;
  cout_put (Str (" " +:+ LF +:+ " local memory size per compute unit (bytes): "));;
  cout_put (Int perUnit);;
  cout_put Endl.

Definition main : M Z :=
  match platforms w with
  | [] => cerr_put (Str "no platforms found!");; cerr_put Endl;; ret (-1)
  | platform :: _ =>
      match devices platform with
      | [] => cerr_put (Str "no devices found!");; cerr_put Endl;; ret (-1)
      | dev :: _ => print_info dev;; ret 0
      end
  end.

End DeviceInfo.
End DeviceInfo.

(** ** The hello-world program *)

Module Hello.
Section Hello.
Variable w : World.

Definition get_default_device : M Device :=
  match platforms w with
  | [] => cerr_put (Str "no platforms found!");; cerr_put Endl;; exit 1
  | platform :: _ =>
      match devices platform with
      | [] => cerr_put (Str "no devices found!");; cerr_put Endl;; exit 1
      | dev :: _ => ret dev
      end
  end.

(** [char buf[n]]: an uninitialised local array. *)
Definition local_array (n : Z) : M ptr :=
  fun s =>
    Ret (Ptr (next_block s) 0)
      {| host := <[next_block s := map (fun i => wrap 8 (stack_mem w i)) (seqZ 0 n)]>
                   (host s);
         next_block := S (next_block s); cout := cout s; cerr := cerr s;
         ticks := ticks s; created := created s; devmem := devmem s;
         program := program s; context := context s; device := device s |}.

(** The characters of the C string at [p[i]], up to its terminator. *)
Fixpoint read_cstring (fuel : nat) (p : ptr) (i : Z) : M (list Z) :=
  match fuel with
  | O => undefined
  | S fuel' =>
      c <- read p i;;
      if decide (c = 0) then ret []
      else cs <- read_cstring fuel' p (i + 1);; ret (c :: cs)
  end.

Definition main : M Z :=
  dev <- get_default_device;;
  let context := Some dev in
  let program := if build_failed w then Some [] else Some (hello_cl w) in
  (if build_failed w then report_build_failure w else ret tt);;
  buf <- local_array 16;;
  memBuf <- Buffer_new w context 16 1;;
  let kernel := Kernel_create program "hello" in
  let queue := CommandQueue context (Some dev) in
  enqueueTask queue kernel [memBuf];;
  enqueueReadBuffer queue memBuf 16 1 buf;;
  text <- read_cstring 17 buf 0;;
  cout_put (Chars text);;
  Buffer_release memBuf;;
  ret 0.

End Hello.
End Hello.

(** ** The CUDA hello program *)

Module CudaHello.
Section CudaHello.
Variable w : World.

Definition NUM_BLOCKS : Z := 16.
Definition BLOCK_WIDTH : Z := 1.

Definition hello (blockIdx : Z) : M unit :=
  cout_put (Str "hello, I'm a thread in block ");;
  cout_put (Int blockIdx);;
  cout_put (Str LF).

(** The blocks of a launch run in the order the device picks, each with
    [threads] threads. *)
Fixpoint launch (blocks : list Z) (threads : Z) (kernel : Z -> M unit) : M unit :=
  match blocks with
  | [] => ret tt
  | blk :: rest =>
      for_loop (R := Empty_set) (trip_count threads) 0
        (fun _ => kernel blk;; ret None);;
      launch rest threads kernel
  end.

Definition main : M Z :=
  launch (schedule w NUM_BLOCKS) BLOCK_WIDTH hello;;
  cout_put (Str ("done!" +:+ LF));;
  ret 0.

End CudaHello.
End CudaHello.

(** * Vocabulary of the properties *)

(** The cells of a block after the cells [from], ..., [from + n - 1] of an
    array that starts [o] cells into it have been set to [f from], ... *)
Definition overwrite (cells : list Z) (o : Z) (from : Z) (n : nat) (f : Z -> Z) : list Z :=
  take (Z.to_nat (o + from)) cells ++ map f (seqZ from (Z.of_nat n))
    ++ drop (Z.to_nat (o + from) + n) cells.

(** The [N] cells from [p] hold the values [l]. *)
Definition holds (h : heap) (p : ptr) (l : list Z) : Prop :=
  forall (i : nat) x, l !! i = Some x -> load h p (Z.of_nat i) = Some x.

(** The two ways the selection fails, and what each leaves behind: a line on
    the diagnostic stream and the exit status 1. *)
Inductive failure := NoPlatformAvailable | NoDeviceAvailable.

Definition diagnostic (f : failure) : string :=
  match f with
  | NoPlatformAvailable => "no platforms found!"
  | NoDeviceAvailable => "no devices found!"
  end.

Definition complain (line : list item) (s : State) : State :=
  {| host := host s; next_block := next_block s; cout := cout s;
     cerr := cerr s ++ line; ticks := ticks s; created := created s;
     devmem := devmem s;
     program := program s; context := context s; device := device s |}.

Definition fails_with {A} (f : failure) (s : State) : result A :=
  Exit 1 (complain [Str (diagnostic f); Endl] s).

(** First platform, first device. *)
Definition select_device (w : World) : failure + Device :=
  match platforms w with
  | [] => inl NoPlatformAvailable
  | platform :: _ =>
      match devices platform with
      | [] => inl NoDeviceAvailable
      | dev :: _ => inr dev
      end
  end.

(** What a buffer created without initial contents holds: cell [i] of the
    [k]-th buffer of the process, read as an [int]. *)
Definition garbage (w : World) (k : nat) (i : Z) : Z := wrap 32 (fresh_mem w k i).

(** [s'] differs from [s] at most in host memory, device memory and the
    count of buffers. *)
Definition same_process (s s' : State) : Prop :=
  next_block s' = next_block s /\ cout s' = cout s /\ cerr s' = cerr s /\
  ticks s' = ticks s /\ program s' = program s /\ context s' = context s /\
  device s' = device s.

(** A process starts with nothing allocated, nothing printed and null
    globals; [clk] is what its calls of [clock()] will return. *)
Definition process_start (clk : list Z) : State :=
  {| host := ∅; next_block := 0; cout := []; cerr := []; ticks := clk;
     created := 0; devmem := ∅; program := None; context := None; device := None |}.

(** The four vectors of [main], in blocks 0 to 3: [a], [b], [cs], [cp]. *)
Definition input_heap (n : nat) : heap :=
  <[3%nat := replicate n 0]> (<[2%nat := replicate n 0]>
    (<[1%nat := replicate n 5]> (<[0%nat := replicate n 3]> ∅))).

(** The process once the sequential sums are done and timed. *)
Definition after_seq (n : nat) (clk : list Z) : State :=
  {| host := <[2%nat := replicate n 8]> (input_heap n); next_block := 4;
     cout := []; cerr := []; ticks := tail (tail clk);
     created := 0; devmem := ∅; program := None; context := None; device := None |}.

(** What [cp] holds after the ten calls of [parSumArrays]: the contents
    that the last output buffer was created with or, when no buffer of that
    size can be created, the zeros [cp] was filled with. *)
Definition par_result (w : World) (dev : Device) (n : nat) : list Z :=
  if buffer_size_ok (Some dev) (4 * Z.of_nat n)
  then map (garbage w 29) (seqZ 0 (Z.of_nat n))
  else replicate n 0.

(** What [clock()] returns when [clk] is still to come. *)
Definition reading (clk : list Z) : Z :=
  match clk with t :: _ => t | [] => -1 end.

(** The lines of the report, given the verdict, [cp[0]] and the two mean
    times. *)
Definition report (equal : bool) (cp0 : Z) (seqTime parTime : double) : list item :=
  [ Str "status: "; Str (if equal then "SUCCESS!" else "FAILED!"); Endl;
    Str ("results: " +:+ LF +:+ TAB +:+ "a[0] = "); Int 3;
    Str (LF +:+ TAB +:+ "b[0] = "); Int 5;
    Str (LF +:+ TAB +:+ "c[0] = a[0] + b[0] = "); Int cp0; Endl;
    Str ("mean execution time: " +:+ LF +:+ TAB +:+ "sequential: "); Dbl seqTime;
    Str (" ms;" +:+ LF +:+ TAB +:+ "parallel: "); Dbl parTime; Str " ms."; Endl;
    Str "performance gain: "; Dbl (performance_gain seqTime parTime);
    Str ("%" +:+ LF) ].

(** The two lines a failed build leaves on the diagnostic stream. *)
Definition build_diagnostics (w : World) : list item :=
  [ Str ("build status:" +:+ TAB +:+ " "); Int (build_info_status w); Endl;
    Str ("build log   :" +:+ TAB +:+ " "); Str (build_log w); Endl ].

Definition with_globals (p : option Program) (c d : option Device) (s : State) : State :=
  {| host := host s; next_block := next_block s; cout := cout s;
     cerr := cerr s; ticks := ticks s; created := created s;
     devmem := devmem s; program := p; context := c; device := d |}.

(** The exit status of the process: the argument of [exit] or the value
    [main] returns. *)
Definition exit_code (r : result Z) : option Z :=
  match r with
  | Ret code _ => Some code
  | Exit code _ => Some code
  | Undef => None
  end.

(** The output vectors [cs] and [cp] are as [main] allocated them: no sum
    has been stored yet. *)
Definition nothing_computed (s : State) : Prop :=
  host s !! 2%nat = Some (replicate (Z.to_nat ARRAYS_DIM) 0) /\
  host s !! 3%nat = Some (replicate (Z.to_nat ARRAYS_DIM) 0).

Definition example_device : Device :=
  {| name := "device"; vendor := "vendor"; version := "OpenCL 1.2";
     workItems := [1024; 1024; 64]; workGroups := 1024; computeUnits := 8;
     globalMemory := 4294967296; localMemory := 65536; maxMemAlloc := 1073741824 |}.

(** A world with the given platforms and build status, whose fresh device
    buffers hold [fresh] and whose work-items run in ascending order. *)
Definition example_world (ps : list Platform) (status : Z) (fresh : nat -> Z -> Z)
  : World :=
  {| platforms := ps; build_status := status; build_info_status := -2;
     build_log := "error"; fresh_mem := fresh; schedule := fun N => seqZ 0 N;
     stack_mem := fun _ => 0; hello_cl := []; CLOCKS_PER_SEC := 1000000 |}.

Definition no_platform : World := example_world [] 0 (fun _ _ => 0).
Definition no_device : World := example_world [ {| devices := [] |} ] 0 (fun _ _ => 0).
Definition one_device : World :=
  example_world [ {| devices := [example_device] |} ] 0 (fun _ _ => 0).

(** [m] never calls [exit]. *)
Definition no_exit {A} (m : M A) : Prop :=
  forall s code s', m s <> Exit code s'.

(** Whenever [m] returns, it returns [v]. *)
Definition returns_only {A} (v : A) (m : M A) : Prop :=
  forall s a s', m s = Ret a s' -> a = v.

(** [a = [3,3,3,3]] and [b = [5,5,5,5]] are allocated as in [main], with
    the outputs [cs] and [cp]; the device is initialised; then the sequential
    sum is called once and the parallel sum [calls] times, on the same [a]
    and [b] every time. *)
Definition scenario (w : World) (calls : Z) : result unit :=
  (a <- vector_new 4 3;;
   b <- vector_new 4 5;;
   cs <- vector_new 4 0;;
   cp <- vector_new 4 0;;
   initializeDevice w;;
   seqSumArrays a b cs 4;;
   repeat_call calls (parSumArrays w a b cp 4)) (process_start []).

(** The contents of a block of host memory when the call has returned. *)
Definition block_of {A} (r : result A) (b : nat) : option (list Z) :=
  match r with
  | Ret _ s => host s !! b
  | _ => None
  end.

(** Device memory whose fresh buffers hold zeros, and device memory whose
    [k]-th fresh buffer holds [k] everywhere. *)
Definition zeroed : World :=
  example_world [ {| devices := [example_device] |} ] 0 (fun _ _ => 0).
Definition drifting : World :=
  example_world [ {| devices := [example_device] |} ] 0 (fun k _ => Z.of_nat k).

(** Host memory after [main] has allocated its vectors, for vectors of four
    elements. *)
Definition four_elements : State :=
  {| host := input_heap 4; next_block := 4; cout := []; cerr := []; ticks := [];
     created := 0; devmem := ∅; program := None; context := None; device := None |}.

(** Two arrays that agree at index 0 and differ at index 1; the first one
    ends there, the second one goes on. *)
Definition two_arrays : State :=
  {| host := <[1%nat := [8; 2; 7]]> (<[0%nat := [8; 1]]> ∅); next_block := 2;
     cout := []; cerr := []; ticks := [];
     created := 0; devmem := ∅; program := None; context := None; device := None |}.

(** No device buffer has a handle that is still to be handed out. *)
Definition handles_fresh (s : State) : Prop :=
  forall k : nat, (created s <= k)%nat -> devmem s !! k = None.

(** The four-element vectors again, once [initializeDevice] has found
    [example_device] and built add.cl. *)
Definition four_elements_ready : State :=
  with_globals (Some add_cl) (Some example_device) (Some example_device) four_elements.

Definition is_nan (d : double) : bool :=
  match d with S754_nan => true | _ => false end.

(** [s] with [items] more on the standard output. *)
Definition with_cout (items : list item) (s : State) : State :=
  {| host := host s; next_block := next_block s; cout := cout s ++ items;
     cerr := cerr s; ticks := ticks s; created := created s;
     devmem := devmem s;
     program := program s; context := context s; device := device s |}.

(** What the device-information program prints about a device whose first
    three work-item sizes are [w0], [w1], [w2]. *)
Definition info_lines (dev : Device) (w0 w1 w2 : Z) : list item :=
  [ Str "OpenCL device info:";
    Str (" " +:+ LF +:+ " name: "); Str (name dev);
    Str (" " +:+ LF +:+ " vendor: "); Str (vendor dev);
    Str (" " +:+ LF +:+ " version: "); Str (version dev);
    Str (" " +:+ LF +:+ " max size of work-items: (");
    Int w0; Str ","; Int w1; Str ","; Int w2; Str ")";
    Str (" " +:+ LF +:+ " max size of work-groups: "); Int (workGroups dev);
    Str (" " +:+ LF +:+ " number of compute units: "); Int (computeUnits dev);
    Str (" " +:+ LF +:+ " nlobal memory size (bytes): "); Int (globalMemory dev);
    Str (" " +:+ LF +:+ " local memory size per compute unit (bytes): ");
    Int (Z.quot (localMemory dev) (computeUnits dev));
    Endl ].

(** The characters of a C string that starts [cells], if it ends within
    [cells]. *)
Fixpoint cstring (cells : list Z) : option (list Z) :=
  match cells with
  | [] => None
  | c :: rest =>
      if decide (c = 0) then Some []
      else match cstring rest with
           | Some cs => Some (c :: cs)
           | None => None
           end
  end.

(** A device that cannot allocate the 16 bytes of four [int]s, and the
    four-element vectors once [initializeDevice] has found it. *)
Definition small_device : Device :=
  {| name := "small"; vendor := "vendor"; version := "OpenCL 1.2";
     workItems := [1024; 1024; 64]; workGroups := 1024; computeUnits := 8;
     globalMemory := 4294967296; localMemory := 65536; maxMemAlloc := 8 |}.

Definition four_elements_small : State :=
  with_globals (Some add_cl) (Some small_device) (Some small_device) four_elements.

(** A world whose hello.cl defines a kernel [hello] that writes "Hi!", a
    line feed and NULs into its 16-byte buffer. *)
Definition greeting_world : World :=
  {| platforms := [ {| devices := [example_device] |} ]; build_status := 0;
     build_info_status := 0; build_log := ""; fresh_mem := fun _ _ => 0;
     schedule := fun N => seqZ 0 N; stack_mem := fun _ => 0;
     hello_cl := [ ("hello"%string,
                    fun _ _ => Some [[72; 105; 33; 10; 0; 0; 0; 0;
                                      0; 0; 0; 0; 0; 0; 0; 0]]) ];
     CLOCKS_PER_SEC := 1000000 |}.

(** * Properties *)

(** ** The monad *)

Lemma bind_Ret {A B} (m : M A) (k : A -> M B) s a s' :
  m s = Ret a s' -> bind m k s = k a s'.
Proof. intros H. unfold bind. now rewrite H. Qed.

Lemma bind_Exit {A B} (m : M A) (k : A -> M B) s code s' :
  m s = Exit code s' -> bind m k s = Exit code s'.
Proof. intros H. unfold bind. now rewrite H. Qed.

Lemma set_host_host s : set_host (host s) s = s.
Proof. now destruct s. Qed.

Lemma set_host_twice h h' s : set_host h' (set_host h s) = set_host h' s.
Proof. reflexivity. Qed.

Lemma read_Some p i v s : load (host s) p i = Some v -> read p i s = Ret v s.
Proof. intros H. unfold read. now rewrite H. Qed.

Lemma write_Some p i v h s :
  store (host s) p i v = Some h -> write p i v s = Ret tt (set_host h s).
Proof. intros H. unfold write. now rewrite H. Qed.

(** ** Loads and stores *)

Lemma load_other_block (h : heap) p i b cells :
  pblock p <> b -> load (<[b := cells]> h) p i = load h p i.
Proof.
  intros Hne. unfold load. rewrite lookup_insert_ne; [reflexivity | congruence].
Qed.

Lemma store_in_range h p i v cells :
  h !! pblock p = Some cells ->
  0 <= poff p + i < Z.of_nat (length cells) ->
  store h p i v = Some (<[pblock p := <[Z.to_nat (poff p + i) := v]> cells]> h).
Proof.
  intros Hb Hr. unfold store. rewrite Hb. now rewrite decide_True.
Qed.

Lemma overwrite_nothing cells o from f :
  overwrite cells o from 0 f = cells.
Proof.
  unfold overwrite. simpl. rewrite Nat.add_0_r. apply take_drop.
Qed.

Lemma overwrite_step cells o from n f :
  0 <= o + from < Z.of_nat (length cells) ->
  overwrite (<[Z.to_nat (o + from) := f from]> cells) o (from + 1) n f
  = overwrite cells o from (S n) f.
Proof.
  intros Hr. unfold overwrite.
  replace (Z.to_nat (o + (from + 1))) with (S (Z.to_nat (o + from))) by lia.
  rewrite (seqZ_cons from (Z.of_nat (S n))) by lia.
  replace (Z.pred (Z.of_nat (S n))) with (Z.of_nat n) by lia.
  replace (Z.succ from) with (from + 1) by lia.
  rewrite (take_S_r _ _ (f from)).
  2:{ apply list_lookup_insert_eq. lia. }
  rewrite take_insert_ge by lia.
  rewrite drop_insert_lt by lia.
  rewrite <- app_assoc. simpl.
  now rewrite Nat.add_succ_r.
Qed.

Lemma overwrite_length cells o from n f :
  0 <= o + from -> (Z.to_nat (o + from) + n <= length cells)%nat ->
  length (overwrite cells o from n f) = length cells.
Proof.
  intros H0 Hr. unfold overwrite.
  rewrite !length_app, length_take, length_map, length_seqZ, length_drop. lia.
Qed.

Lemma overwrite_lookup_in cells o from n f i :
  0 <= o + from -> (Z.to_nat (o + from) + n <= length cells)%nat ->
  from <= i < from + Z.of_nat n ->
  overwrite cells o from n f !! Z.to_nat (o + i) = Some (f i).
Proof.
  intros H0 Hr Hi. unfold overwrite.
  rewrite lookup_app_r; rewrite length_take; [|lia].
  rewrite lookup_app_l by (rewrite length_map, length_seqZ; lia).
  rewrite list_lookup_fmap.
  replace (Z.to_nat (o + i) - Z.to_nat (o + from) `min` length cells)%nat
    with (Z.to_nat (i - from)) by lia.
  rewrite lookup_seqZ_lt by lia. simpl. f_equal. f_equal. lia.
Qed.

Lemma overwrite_lookup_out cells o from n f (j : nat) :
  0 <= o + from -> (Z.to_nat (o + from) + n <= length cells)%nat ->
  (j < Z.to_nat (o + from) \/ Z.to_nat (o + from) + n <= j)%nat ->
  overwrite cells o from n f !! j = cells !! j.
Proof.
  intros H0 Hr Hj. unfold overwrite. destruct Hj as [Hj | Hj].
  - rewrite lookup_app_l by (rewrite length_take; lia).
    now rewrite lookup_take_lt.
  - rewrite lookup_app_r; rewrite length_take; [|lia].
    rewrite lookup_app_r; rewrite length_map, length_seqZ; [|lia].
    rewrite lookup_drop. f_equal. lia.
Qed.

(** ** seqSumArrays *)

Lemma int_add_exact x y :
  INT_MIN <= x + y <= INT_MAX -> int_add x y = x + y.
Proof.
  unfold INT_MIN, INT_MAX, int_add, wrap. intros H.
  change (2 ^ (32 - 1)) with 2147483648. change (2 ^ 32) with 4294967296.
  change (2 ^ 31) with 2147483648 in H.
  rewrite Z.mod_small; lia.
Qed.

Lemma sum_loop a b c (fa fb : Z -> Z) n : forall k cells s,
  pblock c <> pblock a -> pblock c <> pblock b ->
  (forall i, k <= i < k + Z.of_nat n -> load (host s) a i = Some (fa i)) ->
  (forall i, k <= i < k + Z.of_nat n -> load (host s) b i = Some (fb i)) ->
  host s !! pblock c = Some cells ->
  0 <= poff c + k -> (Z.to_nat (poff c + k) + n <= length cells)%nat ->
  for_loop (R := Empty_set) n k
    (fun i => x <- read a i;; y <- read b i;; write c i (int_add x y);; ret None) s
  = Ret None
      (set_host (<[pblock c := overwrite cells (poff c) k n
                                 (fun i => int_add (fa i) (fb i))]> (host s)) s).
Proof.
  induction n as [|n IH]; intros k cells s Hca Hcb Ha Hb Hc H0 Hlen.
  - simpl. unfold ret. rewrite overwrite_nothing, insert_id by assumption.
    now rewrite set_host_host.
  - cbn [for_loop].
    rewrite (bind_Ret _ _ s None
               (set_host (<[pblock c := <[Z.to_nat (poff c + k) := int_add (fa k) (fb k)]> cells]>
                            (host s)) s)).
    2:{ rewrite (bind_Ret _ _ s (fa k) s) by (apply read_Some, Ha; lia).
        rewrite (bind_Ret _ _ s (fb k) s) by (apply read_Some, Hb; lia).
        erewrite bind_Ret; [reflexivity|].
        apply write_Some, store_in_range; [assumption | lia]. }
    rewrite (IH (k + 1) (<[Z.to_nat (poff c + k) := int_add (fa k) (fb k)]> cells)).
    + cbn [host set_host]. rewrite insert_insert_eq, set_host_twice.
      rewrite (overwrite_step cells (poff c) k n (fun i => int_add (fa i) (fb i))) by lia.
      reflexivity.
    + assumption.
    + assumption.
    + intros i Hi. cbn [host set_host]. rewrite load_other_block by congruence.
      apply Ha. lia.
    + intros i Hi. cbn [host set_host]. rewrite load_other_block by congruence.
      apply Hb. lia.
    + cbn [host set_host]. apply lookup_insert_eq.
    + lia.
    + rewrite length_insert. lia.
Qed.

Lemma seqSumArrays_skip a b c N s : N <= 0 -> seqSumArrays a b c N s = Ret tt s.
Proof.
  intros HN. unfold seqSumArrays, trip_count.
  replace (Z.to_nat N) with 0%nat by lia. reflexivity.
Qed.

Lemma seqSumArrays_run a b c N (fa fb : Z -> Z) cells s :
  0 <= N ->
  pblock c <> pblock a -> pblock c <> pblock b ->
  (forall i, 0 <= i < N -> load (host s) a i = Some (fa i)) ->
  (forall i, 0 <= i < N -> load (host s) b i = Some (fb i)) ->
  host s !! pblock c = Some cells ->
  0 <= poff c -> poff c + N <= Z.of_nat (length cells) ->
  seqSumArrays a b c N s
  = Ret tt (set_host (<[pblock c := overwrite cells (poff c) 0 (Z.to_nat N)
                                      (fun i => int_add (fa i) (fb i))]> (host s)) s).
Proof.
  intros HN Hca Hcb Ha Hb Hc H0 Hlen. unfold seqSumArrays, trip_count.
  erewrite bind_Ret; [reflexivity|].
  apply sum_loop with (fa := fa) (fb := fb); try assumption; try lia.
  - intros i Hi. apply Ha. lia.
  - intros i Hi. apply Hb. lia.
Qed.

(** C10: a call of [seqSumArrays] with [N <= 0] runs the loop body zero
    times and returns with the whole state, and so the output array [c],
    exactly as it was, whatever the three pointers are. *)
Theorem seqSumArrays_nonpositive (a b c : ptr) (N : Z) (s : State) :
  N <= 0 ->
  trip_count N = 0%nat /\ seqSumArrays a b c N s = Ret tt s.
Proof.
  intros HN. split.
  - unfold trip_count. lia.
  - now apply seqSumArrays_skip.
Qed.

Lemma seqSumArrays_nonpositive_witness :
  trip_count (-3) = 0%nat /\
  seqSumArrays (Ptr 0 0) (Ptr 1 0) (Ptr 2 0) (-3) four_elements = Ret tt four_elements.
Proof.
  apply (seqSumArrays_nonpositive (Ptr 0 0) (Ptr 1 0) (Ptr 2 0) (-3) four_elements). lia.
Defined.

(** C4: on input arrays [a] and [b] of length [N] and an output array [c]
    of [N] cells in a block of its own, [seqSumArrays] returns, and
    afterwards [c[i]] is the [int] sum of [a[i]] and [b[i]] for every
    [0 <= i < N] (the exact sum whenever that is an [int]); every other cell
    of host memory keeps its value, and nothing but host memory changes: the
    loop runs on the caller's state, no device buffer is created and nothing
    is enqueued. *)
Theorem seqSumArrays_sums (a b c : ptr) (N : Z) (la lb cells : list Z) (s : State) :
  holds (host s) a la -> holds (host s) b lb ->
  length la = Z.to_nat N -> length lb = Z.to_nat N ->
  host s !! pblock c = Some cells ->
  0 <= poff c -> poff c + N <= Z.of_nat (length cells) ->
  pblock c <> pblock a -> pblock c <> pblock b ->
  exists h',
    seqSumArrays a b c N s = Ret tt (set_host h' s) /\
    (forall (i : nat) x y, la !! i = Some x -> lb !! i = Some y ->
       load h' c (Z.of_nat i) = Some (int_add x y) /\
       (INT_MIN <= x + y <= INT_MAX -> load h' c (Z.of_nat i) = Some (x + y))) /\
    (forall p j,
       pblock p <> pblock c \/ poff p + j < poff c \/ poff c + N <= poff p + j ->
       load h' p j = load (host s) p j).
Proof.
  intros Ha Hb Hla Hlb Hc H0 Hlen Hca Hcb.
  destruct (Z_le_gt_dec N 0) as [HN | HN].
  { exists (host s). rewrite set_host_host. split; [now apply seqSumArrays_skip|].
    split; [|reflexivity].
    intros i x y Hx. apply lookup_lt_Some in Hx. lia. }
  pose (fa := fun i : Z => la !!! Z.to_nat i).
  pose (fb := fun i : Z => lb !!! Z.to_nat i).
  assert (Hfa : forall i, 0 <= i < N -> load (host s) a i = Some (fa i)).
  { intros i Hi. replace i with (Z.of_nat (Z.to_nat i)) at 1 by lia.
    apply Ha. apply list_lookup_lookup_total_lt. lia. }
  assert (Hfb : forall i, 0 <= i < N -> load (host s) b i = Some (fb i)).
  { intros i Hi. replace i with (Z.of_nat (Z.to_nat i)) at 1 by lia.
    apply Hb. apply list_lookup_lookup_total_lt. lia. }
  eexists. split.
  { apply (seqSumArrays_run a b c N fa fb cells); try assumption; lia. }
  split.
  - intros i x y Hx Hy.
    assert (Hi : (i < Z.to_nat N)%nat) by (apply lookup_lt_Some in Hx; lia).
    assert (Hload : load (<[pblock c := overwrite cells (poff c) 0 (Z.to_nat N)
                              (fun i => int_add (fa i) (fb i))]> (host s)) c (Z.of_nat i)
                    = Some (int_add x y)).
    { unfold load. rewrite lookup_insert_eq, decide_True by lia.
      rewrite overwrite_lookup_in by lia.
      unfold fa, fb. rewrite Nat2Z.id.
      now rewrite (list_lookup_total_correct _ _ _ Hx), (list_lookup_total_correct _ _ _ Hy). }
    split; [exact Hload|].
    intros Hrange. now rewrite <- (int_add_exact x y Hrange).
  - intros p j Hout. unfold load.
    destruct (decide (pblock p = pblock c)) as [Heq | Hne].
    + rewrite Heq, lookup_insert_eq, Hc.
      destruct (decide (0 <= poff p + j)) as [Hj|]; [|reflexivity].
      apply overwrite_lookup_out; lia.
    + now rewrite lookup_insert_ne by congruence.
Qed.

Lemma seqSumArrays_sums_witness :
  exists h',
    seqSumArrays (Ptr 0 0) (Ptr 1 0) (Ptr 2 0) 4 four_elements
    = Ret tt (set_host h' four_elements) /\
    (forall (i : nat) x y, [3; 3; 3; 3] !! i = Some x -> [5; 5; 5; 5] !! i = Some y ->
       load h' (Ptr 2 0) (Z.of_nat i) = Some (int_add x y) /\
       (INT_MIN <= x + y <= INT_MAX -> load h' (Ptr 2 0) (Z.of_nat i) = Some (x + y))) /\
    (forall p j,
       pblock p <> pblock (Ptr 2 0) \/ poff p + j < poff (Ptr 2 0) \/
       poff (Ptr 2 0) + 4 <= poff p + j ->
       load h' p j = load (host four_elements) p j).
Proof.
  apply (seqSumArrays_sums (Ptr 0 0) (Ptr 1 0) (Ptr 2 0) 4
           [3; 3; 3; 3] [5; 5; 5; 5] [0; 0; 0; 0] four_elements).
  - intros [|[|[|[|i]]]] x H; try discriminate; injection H as <-; reflexivity.
  - intros [|[|[|[|i]]]] x H; try discriminate; injection H as <-; reflexivity.
  - reflexivity.
  - reflexivity.
  - reflexivity.
  - simpl. lia.
  - simpl. lia.
  - discriminate.
  - discriminate.
Defined.

(** Where the exact sum is not an [int], the cell holds the wrapped sum. *)
Example int_add_wraps : int_add INT_MAX 1 = INT_MIN.
Proof. reflexivity. Qed.

(** ** checkEquality *)

Lemma equality_loop_mismatch c1 c2 n : forall k m x y s,
  k <= m < k + Z.of_nat n ->
  (forall i, k <= i < m ->
     exists v, load (host s) c1 i = Some v /\ load (host s) c2 i = Some v) ->
  load (host s) c1 m = Some x -> load (host s) c2 m = Some y -> x <> y ->
  for_loop n k
    (fun i => x <- read c1 i;; y <- read c2 i;;
              if decide (x <> y) then ret (Some false) else ret None) s
  = Ret (Some false) s.
Proof.
  induction n as [|n IH]; intros k m x y s Hm Heq Hx Hy Hxy; [lia|].
  cbn [for_loop]. destruct (decide (k = m)) as [-> | Hkm].
  - rewrite (bind_Ret _ _ s (Some false) s); [reflexivity|].
    rewrite (bind_Ret _ _ s x s) by now apply read_Some.
    rewrite (bind_Ret _ _ s y s) by now apply read_Some.
    now rewrite decide_True.
  - destruct (Heq k) as (v & Hv1 & Hv2); [lia|].
    rewrite (bind_Ret _ _ s None s).
    + apply (IH (k + 1) m x y); try assumption; [lia|].
      intros i Hi. apply Heq. lia.
    + rewrite (bind_Ret _ _ s v s) by now apply read_Some.
      rewrite (bind_Ret _ _ s v s) by now apply read_Some.
      now rewrite decide_False by tauto.
Qed.

Lemma equality_loop_total c1 c2 n : forall k s,
  (forall i, k <= i < k + Z.of_nat n ->
     is_Some (load (host s) c1 i) /\ is_Some (load (host s) c2 i)) ->
  (for_loop n k
     (fun i => x <- read c1 i;; y <- read c2 i;;
               if decide (x <> y) then ret (Some false) else ret None) s
   = Ret None s /\
   forall i, k <= i < k + Z.of_nat n -> load (host s) c1 i = load (host s) c2 i)
  \/
  (for_loop n k
     (fun i => x <- read c1 i;; y <- read c2 i;;
               if decide (x <> y) then ret (Some false) else ret None) s
   = Ret (Some false) s /\
   exists m, k <= m < k + Z.of_nat n /\ load (host s) c1 m <> load (host s) c2 m).
Proof.
  induction n as [|n IH]; intros k s Hread.
  - left. split; [reflexivity | lia].
  - destruct (Hread k) as [[x Hx] [y Hy]]; [lia|].
    destruct (decide (x = y)) as [-> | Hxy].
    + destruct (IH (k + 1) s) as [[Hrun Hall] | [Hrun (m & Hm & Hne)]].
      { intros i Hi. apply Hread. lia. }
      * left. split.
        -- cbn [for_loop]. rewrite (bind_Ret _ _ s None s); [exact Hrun|].
           rewrite (bind_Ret _ _ s y s) by now apply read_Some.
           rewrite (bind_Ret _ _ s y s) by now apply read_Some.
           now rewrite decide_False by tauto.
        -- intros i Hi. destruct (decide (i = k)) as [-> | Hik]; [congruence|].
           apply Hall. lia.
      * right. split.
        -- cbn [for_loop]. rewrite (bind_Ret _ _ s None s); [exact Hrun|].
           rewrite (bind_Ret _ _ s y s) by now apply read_Some.
           rewrite (bind_Ret _ _ s y s) by now apply read_Some.
           now rewrite decide_False by tauto.
        -- exists m. split; [lia | assumption].
    + right. split.
      * apply (equality_loop_mismatch c1 c2 (S n) k k x y); try assumption; lia.
      * exists k. split; [lia | congruence].
Qed.

Lemma checkEquality_run c1 c2 N s :
  (forall i, 0 <= i < N ->
     is_Some (load (host s) c1 i) /\ is_Some (load (host s) c2 i)) ->
  exists r, checkEquality c1 c2 N s = Ret r s /\
    (r = true <-> forall i, 0 <= i < N -> load (host s) c1 i = load (host s) c2 i).
Proof.
  intros Hread.
  destruct (equality_loop_total c1 c2 (trip_count N) 0 s) as [[Hrun Hall] | [Hrun (m & Hm & Hne)]].
  { intros i Hi. apply Hread. unfold trip_count in Hi. lia. }
  - exists true. split.
    + unfold checkEquality. now rewrite (bind_Ret _ _ s None s).
    + split; [|reflexivity]. intros _ i Hi. apply Hall. unfold trip_count. lia.
  - exists false. split.
    + unfold checkEquality. now rewrite (bind_Ret _ _ s (Some false) s).
    + split; [discriminate|]. intros Hall. exfalso. apply Hne, Hall.
      unfold trip_count in Hm. lia.
Qed.

Lemma checkEquality_first_mismatch c1 c2 N s m x y :
  0 <= m < N ->
  (forall i, 0 <= i < m ->
     exists v, load (host s) c1 i = Some v /\ load (host s) c2 i = Some v) ->
  load (host s) c1 m = Some x -> load (host s) c2 m = Some y -> x <> y ->
  checkEquality c1 c2 N s = Ret false s.
Proof.
  intros Hm Heq Hx Hy Hxy. unfold checkEquality.
  rewrite (bind_Ret _ _ s (Some false) s); [reflexivity|].
  apply (equality_loop_mismatch c1 c2 (trip_count N) 0 m x y); try assumption.
  unfold trip_count. lia.
Qed.

(** C5: [checkEquality] on two arrays whose [N] cells are readable returns
    [true] exactly when [c1[i] == c2[i]] for every [0 <= i < N], and hands
    the state back as it received it. At the first index [m] with
    [c1[m] != c2[m]] it returns [false] without looking further: the answer
    is [false] whatever follows index [m], even cells that cannot be read. *)
Theorem checkEquality_spec (c1 c2 : ptr) (N : Z) (s : State) :
  ((forall i, 0 <= i < N ->
      is_Some (load (host s) c1 i) /\ is_Some (load (host s) c2 i)) ->
   exists r, checkEquality c1 c2 N s = Ret r s /\
     (r = true <-> forall i, 0 <= i < N -> load (host s) c1 i = load (host s) c2 i))
  /\
  (forall m x y, 0 <= m < N ->
     (forall i, 0 <= i < m ->
        exists v, load (host s) c1 i = Some v /\ load (host s) c2 i = Some v) ->
     load (host s) c1 m = Some x -> load (host s) c2 m = Some y -> x <> y ->
     checkEquality c1 c2 N s = Ret false s).
Proof.
  split.
  - apply checkEquality_run.
  - intros m x y. apply checkEquality_first_mismatch.
Qed.

Lemma checkEquality_spec_witness :
  (exists r, checkEquality (Ptr 0 0) (Ptr 1 0) 1 two_arrays = Ret r two_arrays /\
     (r = true <->
      forall i, 0 <= i < 1 ->
        load (host two_arrays) (Ptr 0 0) i = load (host two_arrays) (Ptr 1 0) i)) /\
  checkEquality (Ptr 0 0) (Ptr 1 0) 3 two_arrays = Ret false two_arrays /\
  load (host two_arrays) (Ptr 0 0) 2 = None.
Proof.
  split; [|split].
  - destruct (checkEquality_spec (Ptr 0 0) (Ptr 1 0) 1 two_arrays) as (Hall & _).
    apply Hall.
    intros i Hi. assert (i = 0) as -> by lia. split; eexists; reflexivity.
  - destruct (checkEquality_spec (Ptr 0 0) (Ptr 1 0) 3 two_arrays) as (_ & Hfirst).
    apply (Hfirst 1 1 2).
    + lia.
    + intros i Hi. assert (i = 0) as -> by lia. exists 8. split; reflexivity.
    + reflexivity.
    + reflexivity.
    + discriminate.
  - reflexivity.
Defined.

(** ** Device selection *)

Lemma cerr_line msg s :
  (cerr_put (Str msg);; cerr_put Endl;; exit 1) s
  = @Exit Device 1 (complain [Str msg; Endl] s).
Proof.
  unfold bind, cerr_put, exit, complain. cbn. now rewrite <- app_assoc.
Qed.

Lemma getDefaultDevice_select w s :
  getDefaultDevice w s
  = match select_device w with
    | inl f => fails_with f s
    | inr dev => Ret dev s
    end.
Proof.
  unfold getDefaultDevice, select_device, fails_with.
  destruct (platforms w) as [|p ps]; [apply cerr_line|].
  destruct (devices p) as [|d ds]; [apply cerr_line | reflexivity].
Qed.

Lemma get_default_device_same w : Hello.get_default_device w = getDefaultDevice w.
Proof. reflexivity. Qed.

(** C6: the selector of add.cpp ([getDefaultDevice]) and that of the
    hello-world program ([get_default_device]) behave alike. With no
    platform they fail as [NoPlatformAvailable]: "no platforms found!" on the
    diagnostic stream, then exit status 1. Otherwise only the first platform
    is looked at: without a device on it they fail as [NoDeviceAvailable]
    ("no devices found!", exit status 1), and else they return its first
    device and leave the state alone, whatever the other platforms and
    devices are. *)
Theorem device_selector (w : World) (s : State) :
  (platforms w = [] ->
   getDefaultDevice w s = fails_with NoPlatformAvailable s) /\
  (forall p ps, platforms w = p :: ps -> devices p = [] ->
   getDefaultDevice w s = fails_with NoDeviceAvailable s) /\
  (forall p ps d ds, platforms w = p :: ps -> devices p = d :: ds ->
   getDefaultDevice w s = Ret d s) /\
  Hello.get_default_device w s = getDefaultDevice w s.
Proof.
  split; [|split; [|split]].
  - intros Hp. rewrite getDefaultDevice_select. unfold select_device. now rewrite Hp.
  - intros p ps Hp Hd. rewrite getDefaultDevice_select. unfold select_device.
    now rewrite Hp, Hd.
  - intros p ps d ds Hp Hd. rewrite getDefaultDevice_select. unfold select_device.
    now rewrite Hp, Hd.
  - now rewrite get_default_device_same.
Qed.

Lemma device_selector_witness :
  getDefaultDevice no_platform four_elements = fails_with NoPlatformAvailable four_elements /\
  getDefaultDevice no_device four_elements = fails_with NoDeviceAvailable four_elements /\
  getDefaultDevice one_device four_elements = Ret example_device four_elements.
Proof.
  split; [|split].
  - destruct (device_selector no_platform four_elements) as (Hnone & _).
    apply Hnone. reflexivity.
  - destruct (device_selector no_device four_elements) as (_ & Hnone & _).
    apply (Hnone {| devices := [] |} []); reflexivity.
  - destruct (device_selector one_device four_elements) as (_ & _ & Hfirst & _).
    apply (Hfirst {| devices := [example_device] |} [] example_device []); reflexivity.
Defined.

(** ** Transfers between host and device *)

Lemma read_cells_run p (f : Z -> Z) n : forall k s,
  (forall i, k <= i < k + Z.of_nat n -> load (host s) p i = Some (f i)) ->
  read_cells n p k s = Ret (map f (seqZ k (Z.of_nat n))) s.
Proof.
  induction n as [|n IH]; intros k s Hp; [reflexivity|].
  cbn [read_cells].
  rewrite (bind_Ret _ _ s (f k) s) by (apply read_Some, Hp; lia).
  rewrite (bind_Ret _ _ s (map f (seqZ (k + 1) (Z.of_nat n))) s).
  - unfold ret. rewrite (seqZ_cons k (Z.of_nat (S n))) by lia.
    replace (Z.pred (Z.of_nat (S n))) with (Z.of_nat n) by lia.
    now replace (Z.succ k) with (k + 1) by lia.
  - apply IH. intros i Hi. apply Hp. lia.
Qed.

Lemma write_cells_run c (f : Z -> Z) n : forall k cells s,
  host s !! pblock c = Some cells ->
  0 <= poff c + k -> (Z.to_nat (poff c + k) + n <= length cells)%nat ->
  write_cells (map f (seqZ k (Z.of_nat n))) c k s
  = Ret tt (set_host (<[pblock c := overwrite cells (poff c) k n f]> (host s)) s).
Proof.
  induction n as [|n IH]; intros k cells s Hc H0 Hlen.
  - simpl. unfold ret. rewrite overwrite_nothing, insert_id by assumption.
    now rewrite set_host_host.
  - rewrite (seqZ_cons k (Z.of_nat (S n))) by lia.
    replace (Z.pred (Z.of_nat (S n))) with (Z.of_nat n) by lia.
    replace (Z.succ k) with (k + 1) by lia.
    cbn [map write_cells].
    erewrite bind_Ret; [|apply write_Some, store_in_range; [eassumption | lia]].
    rewrite (IH (k + 1) (<[Z.to_nat (poff c + k) := f k]> cells)).
    + cbn [host set_host]. rewrite insert_insert_eq, set_host_twice.
      now rewrite (overwrite_step cells (poff c) k n f) by lia.
    + cbn [host set_host]. apply lookup_insert_eq.
    + lia.
    + rewrite length_insert. lia.
Qed.

Lemma size_of_ints_cells N : 0 <= N < 2 ^ 62 -> size_of_ints N = 4 * N.
Proof.
  intros HN. unfold size_of_ints. rewrite Z.mod_small; lia.
Qed.

Lemma overwrite_all cells (f : Z -> Z) n :
  length cells = n -> overwrite cells 0 0 n f = map f (seqZ 0 (Z.of_nat n)).
Proof.
  intros Hlen. unfold overwrite. simpl.
  rewrite drop_ge by lia. now rewrite app_nil_r.
Qed.

Lemma map_const_seqZ (v : Z) n : map (fun _ : Z => v) (seqZ 0 (Z.of_nat n)) = replicate n v.
Proof.
  apply list_eq. intros i. rewrite list_lookup_fmap.
  destruct (decide (i < n)%nat) as [Hi | Hi].
  - rewrite lookup_seqZ_lt by lia. simpl. now rewrite lookup_replicate_2.
  - rewrite lookup_seqZ_ge by lia. simpl. symmetry. apply lookup_replicate_None. lia.
Qed.

(** ** Repeated calls *)

Lemma for_loop_calls (P : nat -> State -> Prop) (call : M unit) :
  (forall j s, P j s -> exists s', call s = Ret tt s' /\ P (S j) s') ->
  forall n j k s, P j s ->
  exists s', for_loop (R := Empty_set) n k (fun _ => call;; ret None) s = Ret None s'
             /\ P (j + n)%nat s'.
Proof.
  intros Hcall. induction n as [|n IH]; intros j k s HP.
  - exists s. rewrite Nat.add_0_r. now split.
  - destruct (Hcall j s HP) as (s1 & Hrun & HP1).
    destruct (IH (S j) (k + 1) s1 HP1) as (s2 & Hrest & HP2).
    exists s2. split.
    + cbn [for_loop]. rewrite (bind_Ret _ _ s None s1); [exact Hrest|].
      now rewrite (bind_Ret _ _ s tt s1).
    + now replace (j + S n)%nat with (S j + n)%nat by lia.
Qed.

Lemma repeat_call_inv (P : nat -> State -> Prop) (call : M unit) times s :
  (forall j s, P j s -> exists s', call s = Ret tt s' /\ P (S j) s') ->
  P 0%nat s ->
  exists s', repeat_call times call s = Ret tt s' /\ P (trip_count times) s'.
Proof.
  intros Hcall HP.
  destruct (for_loop_calls P call Hcall (trip_count times) 0%nat 0 s HP) as (s' & Hrun & HP').
  exists s'. split; [|exact HP'].
  unfold repeat_call. now rewrite (bind_Ret _ _ s None s').
Qed.

(** ** parSumArrays *)

Lemma no_kernel_sumArrays : Kernel_create (Some add_cl) "sumArrays" = None.
Proof. reflexivity. Qed.

Lemma kernel_add : Kernel_create (Some add_cl) "add" = Some add.
Proof. reflexivity. Qed.

Lemma parSumArrays_run w a b c N (fa fb : Z -> Z) cells dev s :
  context s = Some dev -> device s = Some dev -> program s = Some add_cl ->
  0 < N < 2 ^ 62 -> 4 * N <= maxMemAlloc dev ->
  (forall i, 0 <= i < N -> load (host s) a i = Some (fa i)) ->
  (forall i, 0 <= i < N -> load (host s) b i = Some (fb i)) ->
  host s !! pblock c = Some cells ->
  0 <= poff c -> poff c + N <= Z.of_nat (length cells) ->
  exists s',
    parSumArrays w a b c N s = Ret tt s' /\
    host s' = <[pblock c := overwrite cells (poff c) 0 (Z.to_nat N)
                              (garbage w (created s + 2))]> (host s) /\
    created s' = (created s + 3)%nat /\
    same_process s s'.
Proof.
  intros Hctx Hdev Hprog HN Hmax Ha Hb Hc H0 Hlen.
  destruct (Z_of_nat_complete N) as [n ->]; [lia|].
  rewrite Nat2Z.id.
  unfold parSumArrays.
  rewrite (bind_Ret _ _ s s s) by reflexivity.
  rewrite Hctx, Hdev, Hprog, no_kernel_sumArrays.
  rewrite size_of_ints_cells by lia.
  unfold Buffer_copy, Buffer_new, buffer_size_ok.
  rewrite bool_decide_eq_true_2 by lia.
  replace (4 * Z.of_nat n / 4) with (Z.of_nat n) by (rewrite Z.mul_comm, Z.div_mul; lia).
  rewrite Nat2Z.id.
  erewrite (bind_Ret _ _ s).
  2:{ erewrite bind_Ret; [reflexivity|].
      apply read_cells_run with (f := fa). intros i Hi. apply Ha. lia. }
  erewrite bind_Ret.
  2:{ erewrite bind_Ret; [reflexivity|].
      apply read_cells_run with (f := fb). intros i Hi. apply Hb. lia. }
  erewrite bind_Ret.
  2:{ erewrite bind_Ret; reflexivity. }
  cbn [created host devmem context device program next_block cout cerr ticks].
  unfold enqueueNDRangeKernel, enqueue_items, CommandQueue.
  erewrite bind_Ret; [|reflexivity].
  erewrite bind_Ret.
  2:{ unfold enqueueReadBuffer. erewrite bind_Ret; [|reflexivity].
      cbn [created host devmem context device program next_block cout cerr ticks].
      rewrite lookup_insert_eq.
      rewrite decide_True.
      2:{ rewrite length_map, length_seqZ. lia. }
      replace (4 * Z.of_nat n / 4) with (Z.of_nat n) by (rewrite Z.mul_comm, Z.div_mul; lia).
      rewrite take_ge by (rewrite length_map, length_seqZ; lia).
      apply write_cells_run with (cells := cells); cbn [host]; [assumption | lia | lia]. }
  eexists. split; [reflexivity|].
  cbn [created host devmem context device program next_block cout cerr ticks
       set_host set_devmem].
  replace (created s + 2)%nat with (S (S (created s))) by lia.
  split; [reflexivity|].
  split; [lia|].
  unfold same_process.
  cbn [created host devmem context device program next_block cout cerr ticks].
  tauto.
Qed.

Lemma parSumArrays_no_buffers w a b c N s :
  buffer_size_ok (context s) (size_of_ints N) = false ->
  program s = None \/ program s = Some add_cl ->
  parSumArrays w a b c N s = Ret tt s.
Proof.
  intros Hsize Hprog. unfold parSumArrays.
  rewrite (bind_Ret _ _ s s s) by reflexivity.
  unfold Buffer_copy, Buffer_new. rewrite Hsize.
  rewrite (bind_Ret _ _ s None s) by reflexivity.
  rewrite (bind_Ret _ _ s None s) by reflexivity.
  rewrite (bind_Ret _ _ s None s) by reflexivity.
  assert (Hk : Kernel_create (program s) "sumArrays" = None).
  { destruct Hprog as [-> | ->]; reflexivity. }
  rewrite Hk. unfold enqueueNDRangeKernel, enqueue_items.
  rewrite (bind_Ret _ _ s tt s) by (destruct (CommandQueue _ _); reflexivity).
  rewrite (bind_Ret _ _ s tt s).
  - reflexivity.
  - unfold enqueueReadBuffer. rewrite (bind_Ret _ _ s s s) by reflexivity.
    destruct (CommandQueue _ _); reflexivity.
Qed.

(** ** The phases of the benchmark *)

Lemma vector_new_ok n x s :
  0 <= n ->
  vector_new n x s
  = Ret (Ptr (next_block s) 0)
      {| host := <[next_block s := replicate (Z.to_nat n) x]> (host s);
         next_block := S (next_block s); cout := cout s; cerr := cerr s;
         ticks := ticks s; created := created s; devmem := devmem s;
         program := program s; context := context s; device := device s |}.
Proof. intros Hn. unfold vector_new. now rewrite decide_True. Qed.

Lemma load_block (h : heap) b cells (i : nat) v :
  h !! b = Some cells -> cells !! i = Some v -> load h (Ptr b 0) (Z.of_nat i) = Some v.
Proof.
  intros Hb Hi. unfold load. cbn [pblock poff]. rewrite Hb.
  rewrite decide_True by lia. now rewrite Z.add_0_l, Nat2Z.id.
Qed.

Lemma load_replicate (h : heap) b n v i :
  h !! b = Some (replicate n v) -> 0 <= i < Z.of_nat n ->
  load h (Ptr b 0) i = Some v.
Proof.
  intros Hb Hi. replace i with (Z.of_nat (Z.to_nat i)) by lia.
  apply load_block with (cells := replicate n v); [assumption|].
  apply lookup_replicate_2. lia.
Qed.

Lemma int_add_3_5 : int_add 3 5 = 8.
Proof. reflexivity. Qed.

Lemma seq_call n cells s :
  host s !! 0%nat = Some (replicate n 3) ->
  host s !! 1%nat = Some (replicate n 5) ->
  host s !! 2%nat = Some cells -> length cells = n ->
  seqSumArrays (Ptr 0 0) (Ptr 1 0) (Ptr 2 0) (Z.of_nat n) s
  = Ret tt (set_host (<[2%nat := replicate n 8]> (host s)) s).
Proof.
  intros Ha Hb Hc Hlen.
  rewrite (seqSumArrays_run _ _ _ _ (fun _ => 3) (fun _ => 5) cells);
    cbn [pblock poff]; try assumption; try lia; try discriminate.
  - rewrite Nat2Z.id, overwrite_all by assumption.
    rewrite int_add_3_5. now rewrite map_const_seqZ.
  - intros i Hi. now apply load_replicate with (n := n).
  - intros i Hi. now apply load_replicate with (n := n).
Qed.

Lemma seq_phase n cells s :
  host s !! 0%nat = Some (replicate n 3) ->
  host s !! 1%nat = Some (replicate n 5) ->
  host s !! 2%nat = Some cells -> length cells = n ->
  repeat_call EXECUTIONS (seqSumArrays (Ptr 0 0) (Ptr 1 0) (Ptr 2 0) (Z.of_nat n)) s
  = Ret tt (set_host (<[2%nat := replicate n 8]> (host s)) s).
Proof.
  intros Ha Hb Hc Hlen.
  pose (P := fun (j : nat) (s' : State) =>
               match j with
               | O => s' = s
               | S _ => s' = set_host (<[2%nat := replicate n 8]> (host s)) s
               end).
  destruct (repeat_call_inv P
              (seqSumArrays (Ptr 0 0) (Ptr 1 0) (Ptr 2 0) (Z.of_nat n)) EXECUTIONS s)
    as (s' & Hrun & HP).
  - intros [|j] s1 HP; cbn [P] in HP; subst s1.
    + eexists. split; [now apply seq_call with (cells := cells)|]. reflexivity.
    + eexists. split.
      * apply seq_call with (cells := replicate n 8); cbn [host set_host].
        -- now rewrite lookup_insert_ne.
        -- now rewrite lookup_insert_ne.
        -- apply lookup_insert_eq.
        -- apply length_replicate.
      * cbn [P host set_host]. now rewrite insert_insert_eq.
  - reflexivity.
  - rewrite Hrun. f_equal. exact HP.
Qed.

Lemma same_process_refl s : same_process s s.
Proof. unfold same_process. tauto. Qed.

Lemma same_process_trans s1 s2 s3 :
  same_process s1 s2 -> same_process s2 s3 -> same_process s1 s3.
Proof. unfold same_process. intuition congruence. Qed.

Lemma par_phase w dev n s :
  0 < Z.of_nat n < 2 ^ 62 ->
  context s = Some dev -> device s = Some dev -> program s = Some add_cl ->
  created s = 0%nat ->
  host s !! 0%nat = Some (replicate n 3) ->
  host s !! 1%nat = Some (replicate n 5) ->
  host s !! 3%nat = Some (replicate n 0) ->
  exists s',
    repeat_call EXECUTIONS (parSumArrays w (Ptr 0 0) (Ptr 1 0) (Ptr 3 0) (Z.of_nat n)) s
    = Ret tt s' /\
    same_process s s' /\
    host s' = <[3%nat := par_result w dev n]> (host s).
Proof.
  intros Hn Hctx Hdev Hprog Hcr Ha Hb Hc. unfold par_result.
  destruct (buffer_size_ok (Some dev) (4 * Z.of_nat n)) eqn:Hsize.
  - pose (P := fun (j : nat) (s' : State) =>
                 same_process s s' /\ created s' = (3 * j)%nat /\
                 host s' = match j with
                           | O => host s
                           | S _ => <[3%nat := map (garbage w (3 * j - 1))
                                                 (seqZ 0 (Z.of_nat n))]> (host s)
                           end).
    destruct (repeat_call_inv P
                (parSumArrays w (Ptr 0 0) (Ptr 1 0) (Ptr 3 0) (Z.of_nat n)) EXECUTIONS s)
      as (s' & Hrun & Hsame & _ & Hhost).
    + intros j s1 (Hsame & Hcr1 & Hhost).
      assert (Hcells : exists cells, host s1 !! 3%nat = Some cells /\ length cells = n).
      { rewrite Hhost. destruct j.
        - exists (replicate n 0). split; [assumption | apply length_replicate].
        - eexists. split; [apply lookup_insert_eq|].
          rewrite length_map, length_seqZ. lia. }
      destruct Hcells as (cells & Hcells & Hlen).
      assert (Ha1 : host s1 !! 0%nat = Some (replicate n 3)).
      { rewrite Hhost. destruct j; [assumption|]. now rewrite lookup_insert_ne. }
      assert (Hb1 : host s1 !! 1%nat = Some (replicate n 5)).
      { rewrite Hhost. destruct j; [assumption|]. now rewrite lookup_insert_ne. }
      destruct Hsame as (Hnb & Hco & Hce & Hti & Hpr & Hcx & Hdv).
      destruct (parSumArrays_run w (Ptr 0 0) (Ptr 1 0) (Ptr 3 0) (Z.of_nat n)
                  (fun _ => 3) (fun _ => 5) cells dev s1)
        as (s2 & Hrun & Hhost2 & Hcr2 & Hsame2); cbn [pblock poff];
        try congruence; try lia.
      * unfold buffer_size_ok in Hsize. apply bool_decide_eq_true_1 in Hsize. lia.
      * intros i Hi. now apply load_replicate with (n := n).
      * intros i Hi. now apply load_replicate with (n := n).
      * exists s2. split; [exact Hrun|]. split; [|split].
        -- apply same_process_trans with (s2 := s1); [|assumption].
           unfold same_process. tauto.
        -- lia.
        -- rewrite Hhost2. cbn [pblock poff]. rewrite Nat2Z.id, overwrite_all by assumption.
           replace (created s1 + 2)%nat with (3 * S j - 1)%nat by lia.
           rewrite Hhost. destruct j; [reflexivity|]. now rewrite insert_insert_eq.
    + split; [apply same_process_refl|]. split; [lia | reflexivity].
    + exists s'. split; [exact Hrun|]. split; [exact Hsame | exact Hhost].
  - exists s. split; [|split].
    + pose (P := fun (j : nat) (s' : State) => s' = s).
      destruct (repeat_call_inv P
                  (parSumArrays w (Ptr 0 0) (Ptr 1 0) (Ptr 3 0) (Z.of_nat n)) EXECUTIONS s)
        as (s' & Hrun & HP).
      * intros j s1 ->. exists s. split; [|reflexivity].
        apply parSumArrays_no_buffers.
        -- rewrite Hctx, size_of_ints_cells by lia. exact Hsize.
        -- now right.
      * reflexivity.
      * rewrite Hrun. f_equal. exact HP.
    + apply same_process_refl.
    + now rewrite insert_id.
Qed.

(** ** The whole benchmark *)

Lemma report_build_failure_run w s :
  report_build_failure w s = Exit 1 (complain (build_diagnostics w) s).
Proof.
  unfold report_build_failure.
  do 6 (erewrite bind_Ret; [|reflexivity];
        cbn [host next_block cout cerr ticks created devmem program context device]).
  unfold exit, complain, build_diagnostics. now rewrite <- !app_assoc.
Qed.

Lemma initializeDevice_run w s :
  initializeDevice w s
  = match select_device w with
    | inl f => fails_with f s
    | inr dev =>
        if build_failed w
        then Exit 1 (complain (build_diagnostics w)
                       (with_globals (Some []) (Some dev) (Some dev) s))
        else Ret tt (with_globals (Some add_cl) (Some dev) (Some dev) s)
    end.
Proof.
  unfold initializeDevice. unfold bind at 1. rewrite getDefaultDevice_select.
  destruct (select_device w) as [f | dev]; [reflexivity|].
  unfold bind, get, set_globals. cbn.
  destruct (build_failed w).
  - now rewrite report_build_failure_run.
  - reflexivity.
Qed.

Lemma blocks_agree (h : heap) b1 b2 (l1 l2 : list Z) n :
  h !! b1 = Some l1 -> h !! b2 = Some l2 -> length l1 = n -> length l2 = n ->
  (forall i, 0 <= i < Z.of_nat n -> load h (Ptr b1 0) i = load h (Ptr b2 0) i)
  <-> l2 = l1.
Proof.
  intros H1 H2 Hl1 Hl2. unfold load. cbn [pblock poff]. rewrite H1, H2. split.
  - intros Hall. apply list_eq. intros i.
    destruct (decide (i < n)%nat) as [Hi | Hi].
    + specialize (Hall (Z.of_nat i)).
      rewrite !decide_True, Z.add_0_l, Nat2Z.id in Hall by lia.
      symmetry. apply Hall. lia.
    + rewrite !lookup_ge_None_2 by lia. reflexivity.
  - now intros ->.
Qed.

Lemma benchmark_run w dim clk :
  0 < dim < 2 ^ 62 ->
  match select_device w with
  | inl f =>
      benchmark w dim (process_start clk) = fails_with f (after_seq (Z.to_nat dim) clk)
  | inr dev =>
      if build_failed w then
        benchmark w dim (process_start clk)
        = Exit 1 (complain (build_diagnostics w)
                    (with_globals (Some []) (Some dev) (Some dev)
                       (after_seq (Z.to_nat dim) clk)))
      else
        exists s,
          benchmark w dim (process_start clk) = Ret 0 s /\
          host s = <[3%nat := par_result w dev (Z.to_nat dim)]>
                     (host (after_seq (Z.to_nat dim) clk)) /\
          cout s = report (bool_decide (par_result w dev (Z.to_nat dim)
                                        = replicate (Z.to_nat dim) 8))
                     (par_result w dev (Z.to_nat dim) !!! 0%nat)
                     (mean_time w (reading clk) (reading (tail clk)))
                     (mean_time w (reading (tail (tail clk)))
                        (reading (tail (tail (tail clk))))) /\
          cerr s = []
  end.
Proof.
  intros Hdim.
  destruct (Z_of_nat_complete dim) as [n ->]; [lia|].
  rewrite Nat2Z.id.
  assert (Hprefix : forall (k : Z -> Z -> M Z),
    (start <- clock;;
     repeat_call EXECUTIONS (seqSumArrays (Ptr 0 0) (Ptr 1 0) (Ptr 2 0) (Z.of_nat n));;
     end_ <- clock;; k start end_)
      {| host := input_heap n; next_block := 4; cout := []; cerr := []; ticks := clk;
         created := 0; devmem := ∅; program := None; context := None; device := None |}
    = k (reading clk) (reading (tail clk)) (after_seq n clk)).
  { intros k.
    erewrite bind_Ret; [|reflexivity].
    erewrite bind_Ret.
    2:{ apply seq_phase with (cells := replicate n 0); cbn [host ticks]; unfold input_heap.
        - rewrite !lookup_insert_ne by done. apply lookup_insert_eq.
        - rewrite !lookup_insert_ne by done. apply lookup_insert_eq.
        - rewrite !lookup_insert_ne by done. apply lookup_insert_eq.
        - apply length_replicate. }
    erewrite bind_Ret; [|reflexivity].
    reflexivity. }
  unfold benchmark.
  erewrite bind_Ret; [|apply vector_new_ok; lia].
  erewrite bind_Ret; [|apply vector_new_ok; lia].
  erewrite bind_Ret; [|apply vector_new_ok; lia].
  erewrite bind_Ret; [|apply vector_new_ok; lia].
  cbn [process_start host next_block cout cerr ticks created devmem program context device].
  rewrite Nat2Z.id.
  change (<[3%nat := replicate n 0]> (<[2%nat := replicate n 0]>
            (<[1%nat := replicate n 5]> (<[0%nat := replicate n 3]> ∅))))
    with (input_heap n).
  rewrite Hprefix. clear Hprefix.
  pose proof (initializeDevice_run w (after_seq n clk)) as Hinit.
  destruct (select_device w) as [f | dev].
  { now rewrite (bind_Exit _ _ _ _ _ Hinit). }
  destruct (build_failed w).
  { now rewrite (bind_Exit _ _ _ _ _ Hinit). }
  rewrite (bind_Ret _ _ _ _ _ Hinit). clear Hinit.
  erewrite bind_Ret; [|reflexivity].
  destruct (par_phase w dev n
              {| host := host (with_globals (Some add_cl) (Some dev) (Some dev) (after_seq n clk));
                 next_block := 4; cout := []; cerr := [];
                 ticks := tail (tail (tail clk)); created := 0; devmem := ∅;
                 program := Some add_cl; context := Some dev; device := Some dev |})
    as (s3 & Hrun & Hsame & Hhost); try reflexivity; try assumption.
  erewrite bind_Ret; [|exact Hrun]. clear Hrun.
  erewrite bind_Ret; [|reflexivity].
  cbn [host with_globals after_seq] in Hhost.
  destruct Hsame as (Hnb & Hco & Hce & Hti & Hpr & Hcx & Hdv).
  cbn [next_block cout cerr ticks program context device] in Hnb, Hco, Hce, Hti, Hpr, Hcx, Hdv.
  assert (Hlenp : length (par_result w dev n) = n).
  { unfold par_result. destruct (buffer_size_ok _ _).
    - rewrite length_map, length_seqZ. lia.
    - apply length_replicate. }
  assert (Hcs : host s3 !! 2%nat = Some (replicate n 8)).
  { rewrite Hhost. rewrite lookup_insert_ne by done. apply lookup_insert_eq. }
  assert (Hcp : host s3 !! 3%nat = Some (par_result w dev n)).
  { rewrite Hhost. apply lookup_insert_eq. }
  assert (Ha : host s3 !! 0%nat = Some (replicate n 3)).
  { rewrite Hhost. unfold input_heap. rewrite !lookup_insert_ne by done.
    apply lookup_insert_eq. }
  assert (Hb : host s3 !! 1%nat = Some (replicate n 5)).
  { rewrite Hhost. unfold input_heap. rewrite !lookup_insert_ne by done.
    apply lookup_insert_eq. }
  destruct (lookup_lt_is_Some_2 (par_result w dev n) 0) as [cp0 Hcp0]; [lia|].
  rewrite Hnb, Hco, Hce, Hti, Hpr, Hcx, Hdv.
  cbn [ticks with_globals after_seq].
  fold (reading (tail (tail clk))). fold (reading (tail (tail (tail clk)))).
  set (s4 := {| host := host s3; next_block := 4; cout := []; cerr := [];
                ticks := tail (tail (tail (tail clk))); created := created s3;
                devmem := devmem s3; program := Some add_cl;
                context := Some dev; device := Some dev |}).
  destruct (checkEquality_run (Ptr 2 0) (Ptr 3 0) (Z.of_nat n) s4) as (equal & Hrun & Hequal).
  { intros i Hi. cbn [host s4]. unfold load. cbn [pblock poff]. rewrite Hcs, Hcp.
    rewrite !decide_True by lia. split; apply lookup_lt_is_Some_2.
    - rewrite length_replicate. lia.
    - lia. }
  rewrite (bind_Ret _ _ _ _ _ Hrun). clear Hrun.
  assert (Heq : equal = bool_decide (par_result w dev n = replicate n 8)).
  { cbn [host s4] in Hequal.
    rewrite (blocks_agree (host s3) 2 3 (replicate n 8) (par_result w dev n) n) in Hequal
      by (assumption || apply length_replicate).
    destruct equal.
    - symmetry. apply bool_decide_eq_true_2. now apply Hequal.
    - symmetry. apply bool_decide_eq_false_2. intros Hc. apply Hequal in Hc. discriminate. }
  do 3 (erewrite bind_Ret; [|reflexivity];
        cbn [host next_block cout cerr ticks created devmem program context device app s4]).
  erewrite bind_Ret.
  2:{ apply read_Some. cbn [host]. apply load_replicate with (n := n); [exact Ha | lia]. }
  erewrite bind_Ret.
  2:{ apply read_Some. cbn [host]. apply load_replicate with (n := n); [exact Hb | lia]. }
  erewrite bind_Ret.
  2:{ apply read_Some. cbn [host].
      apply (load_block _ _ _ 0 cp0 Hcp Hcp0). }
  subst s4.
  do 16 (erewrite bind_Ret; [|reflexivity];
         cbn [host next_block cout cerr ticks created devmem program context device app]).
  eexists. split; [reflexivity|].
  cbn [host cout cerr]. split; [exact Hhost|]. split; [|reflexivity].
  rewrite <- Heq. rewrite (list_lookup_total_correct _ _ _ Hcp0). reflexivity.
Qed.

(** ** The runs of [main] *)

Lemma ARRAYS_DIM_range : 0 < ARRAYS_DIM < 2 ^ 62.
Proof. split; reflexivity. Qed.

Lemma ARRAYS_DIM_cells : (0 < Z.to_nat ARRAYS_DIM)%nat.
Proof. change ARRAYS_DIM with 1048576. lia. Qed.

Lemma main_selection_failure w clk f :
  select_device w = inl f ->
  main w (process_start clk) = fails_with f (after_seq (Z.to_nat ARRAYS_DIM) clk).
Proof.
  intros Hsel. pose proof (benchmark_run w ARRAYS_DIM clk ARRAYS_DIM_range) as Hrun.
  now rewrite Hsel in Hrun.
Qed.

Lemma after_seq_state n clk :
  host (after_seq n clk) !! 2%nat = Some (replicate n 8) /\
  host (after_seq n clk) !! 3%nat = Some (replicate n 0) /\
  cout (after_seq n clk) = [] /\ created (after_seq n clk) = 0%nat /\
  devmem (after_seq n clk) = ∅.
Proof. repeat split. Qed.

Lemma replicate_differ (n : nat) (x y : Z) :
  (0 < n)%nat -> x <> y -> replicate n x <> replicate n y.
Proof.
  intros Hn Hxy Heq. apply Hxy.
  assert (H : replicate n x !! 0%nat = replicate n y !! 0%nat) by now rewrite Heq.
  rewrite !lookup_replicate_2 in H by lia. congruence.
Qed.

(** C2, as stated, fails: with no platform [main] exits with status 1
    after "no platforms found!", but only after the ten sequential sums, which
    have filled [cs]. *)
Lemma main_sums_before_exit :
  platforms no_platform = [] /\
  exists s, main no_platform (process_start []) = Exit 1 s /\
            cerr s = [Str "no platforms found!"; Endl] /\
            ~ nothing_computed s.
Proof.
  split; [reflexivity|].
  eexists. split; [exact (main_selection_failure no_platform [] NoPlatformAvailable eq_refl)|].
  unfold nothing_computed, fails_with.
  pose proof ARRAYS_DIM_cells as Hn. revert Hn.
  generalize (Z.to_nat ARRAYS_DIM) as n. intros n Hn.
  split; [reflexivity|].
  intros [Hcs _]. cbn [complain host] in Hcs.
  destruct (after_seq_state n []) as (Hcs' & _).
  rewrite Hcs' in Hcs.
  apply (replicate_differ n 8 0 Hn); congruence.
Qed.

(** C2, amended: when the enumeration of platforms, or that of the devices
    of the first platform, is empty, [main] exits with status 1 after one
    line on the diagnostic stream ("no platforms found!", resp. "no devices
    found!"), with nothing on the standard output. No parallel sum has been
    attempted at that point: [cp] holds its initial zeros, no device buffer
    was ever created and device memory is empty. The sequential sums have
    been computed already: [cs] holds them. *)
Theorem main_exits_without_device (w : World) (clk : list Z) :
  (platforms w = [] \/ exists p ps, platforms w = p :: ps /\ devices p = []) ->
  exists s,
    main w (process_start clk) = Exit 1 s /\
    (cerr s = [Str "no platforms found!"; Endl] /\ platforms w = [] \/
     cerr s = [Str "no devices found!"; Endl] /\ platforms w <> []) /\
    cout s = [] /\
    host s !! 3%nat = Some (replicate (Z.to_nat ARRAYS_DIM) 0) /\
    created s = 0%nat /\ devmem s = ∅ /\
    host s !! 2%nat = Some (replicate (Z.to_nat ARRAYS_DIM) 8).
Proof.
  intros Hempty.
  assert (Hsel : select_device w = inl NoPlatformAvailable /\ platforms w = [] \/
                 select_device w = inl NoDeviceAvailable /\ platforms w <> []).
  { unfold select_device. destruct Hempty as [-> | (p & ps & -> & ->)]; [left | right]; easy. }
  destruct Hsel as [[Hsel Hp] | [Hsel Hp]];
    (eexists; split; [exact (main_selection_failure w clk _ Hsel)|]);
    unfold fails_with; generalize (Z.to_nat ARRAYS_DIM) as n; intros n;
    destruct (after_seq_state n clk) as (Hcs & Hcp & Hco & Hcr & Hdm);
    cbn [complain host cout cerr created devmem];
    (split; [|tauto]).
  - left. split; [reflexivity | assumption].
  - right. split; [reflexivity | assumption].
Qed.

Lemma main_exits_without_device_witness :
  exists s,
    main no_device (process_start []) = Exit 1 s /\
    (cerr s = [Str "no platforms found!"; Endl] /\ platforms no_device = [] \/
     cerr s = [Str "no devices found!"; Endl] /\ platforms no_device <> []) /\
    cout s = [] /\
    host s !! 3%nat = Some (replicate (Z.to_nat ARRAYS_DIM) 0) /\
    created s = 0%nat /\ devmem s = ∅ /\
    host s !! 2%nat = Some (replicate (Z.to_nat ARRAYS_DIM) 8).
Proof.
  apply (main_exits_without_device no_device []).
  right. exists {| devices := [] |}, []. split; reflexivity.
Defined.

Lemma main_completes w clk dev :
  select_device w = inr dev -> build_status w = CL_BUILD_SUCCESS ->
  exists s,
    main w (process_start clk) = Ret 0 s /\
    host s = <[3%nat := par_result w dev (Z.to_nat ARRAYS_DIM)]>
               (host (after_seq (Z.to_nat ARRAYS_DIM) clk)) /\
    cout s = report (bool_decide (par_result w dev (Z.to_nat ARRAYS_DIM)
                                  = replicate (Z.to_nat ARRAYS_DIM) 8))
               (par_result w dev (Z.to_nat ARRAYS_DIM) !!! 0%nat)
               (mean_time w (reading clk) (reading (tail clk)))
               (mean_time w (reading (tail (tail clk)))
                  (reading (tail (tail (tail clk))))) /\
    cerr s = [].
Proof.
  intros Hsel Hbuild.
  pose proof (benchmark_run w ARRAYS_DIM clk ARRAYS_DIM_range) as Hrun.
  rewrite Hsel in Hrun. unfold build_failed in Hrun.
  rewrite bool_decide_eq_false_2 in Hrun by tauto.
  exact Hrun.
Qed.

(** C9: whenever a device is found and the kernel file builds, [main]
    reaches its report and returns 0, and it does so whatever the equality
    check said: the status line reads "FAILED!" exactly when the final [cp]
    differs from the final [cs], and the value returned is 0 all the same. *)
Theorem main_returns_0 (w : World) (clk : list Z) (dev : Device) :
  select_device w = inr dev -> build_status w = CL_BUILD_SUCCESS ->
  exists s cs cp,
    main w (process_start clk) = Ret 0 s /\
    host s !! 2%nat = Some cs /\ host s !! 3%nat = Some cp /\
    take 3 (cout s)
    = [Str "status: "; Str (if bool_decide (cp = cs) then "SUCCESS!" else "FAILED!"); Endl].
Proof.
  intros Hsel Hbuild.
  destruct (main_completes w clk dev Hsel Hbuild) as (s & Hrun & Hhost & Hcout & _).
  revert Hhost Hcout. generalize (Z.to_nat ARRAYS_DIM) as n. intros n Hhost Hcout.
  exists s, (replicate n 8), (par_result w dev n).
  split; [exact Hrun|]. rewrite Hhost, Hcout. cbn [after_seq host].
  split; [|split].
  - rewrite lookup_insert_ne by done. apply lookup_insert_eq.
  - apply lookup_insert_eq.
  - reflexivity.
Qed.

Lemma main_returns_0_witness :
  exists s cs cp,
    main one_device (process_start [0; 100; 200; 300]) = Ret 0 s /\
    host s !! 2%nat = Some cs /\ host s !! 3%nat = Some cp /\
    take 3 (cout s)
    = [Str "status: "; Str (if bool_decide (cp = cs) then "SUCCESS!" else "FAILED!"); Endl].
Proof.
  apply (main_returns_0 one_device [0; 100; 200; 300] example_device); reflexivity.
Defined.

(** The run of the witness above is one where the check fails: the device
    memory holds zeros, "FAILED!" is printed and 0 is returned. *)
Lemma main_failed_and_returned_0 :
  exists s,
    main one_device (process_start [0; 100; 200; 300]) = Ret 0 s /\
    take 3 (cout s) = [Str "status: "; Str "FAILED!"; Endl].
Proof.
  destruct (main_completes one_device [0; 100; 200; 300] example_device eq_refl eq_refl)
    as (s & Hrun & _ & Hcout & _).
  exists s. split; [exact Hrun|]. rewrite Hcout.
  pose proof ARRAYS_DIM_cells as Hn. revert Hn.
  generalize (Z.to_nat ARRAYS_DIM) as n. intros n Hn.
  rewrite bool_decide_eq_false_2; [reflexivity|].
  intros Heq.
  assert (H0 : par_result one_device example_device n !! 0%nat = Some 8).
  { rewrite Heq. apply lookup_replicate_2. lia. }
  unfold par_result in H0. destruct (buffer_size_ok _ _).
  - rewrite list_lookup_fmap, lookup_seqZ_lt in H0 by lia. discriminate.
  - rewrite lookup_replicate_2 in H0 by lia. discriminate.
Qed.

(** ** The performance gain *)

Lemma ddiv_by_zero (x y : double) :
  is_zero y = true -> is_finite (ddiv x y) = false.
Proof.
  destruct y as [sy | sy | | sy my ey]; try discriminate. intros _.
  now destruct x.
Qed.

(** C7: in every run of [main] that reaches the report, the gain that is
    printed (the 18th item sent to the standard output) is the quotient of
    [100 * (seqTime - parTime)] by [parTime], taken without any test of
    [parTime]; when [parTime] is zero, that quotient is not a number one can
    report: it is an infinity or NaN. *)
Theorem gain_division_unguarded (w : World) (clk : list Z) (dev : Device) :
  select_device w = inr dev -> build_status w = CL_BUILD_SUCCESS ->
  exists s seqTime parTime,
    seqTime = mean_time w (reading clk) (reading (tail clk)) /\
    parTime = mean_time w (reading (tail (tail clk))) (reading (tail (tail (tail clk)))) /\
    main w (process_start clk) = Ret 0 s /\
    cout s !! 17%nat
    = Some (Dbl (ddiv (dmul (double_of_Z 100) (dsub seqTime parTime)) parTime)) /\
    (is_zero parTime = true ->
     is_finite (ddiv (dmul (double_of_Z 100) (dsub seqTime parTime)) parTime) = false).
Proof.
  intros Hsel Hbuild.
  destruct (main_completes w clk dev Hsel Hbuild) as (s & Hrun & _ & Hcout & _).
  exists s. eexists. eexists. split; [reflexivity|]. split; [reflexivity|].
  split; [exact Hrun|]. split.
  - rewrite Hcout. reflexivity.
  - apply ddiv_by_zero.
Qed.

Lemma gain_division_unguarded_witness :
  exists s d,
    main one_device (process_start [0; 100; 200; 200]) = Ret 0 s /\
    cout s !! 17%nat = Some (Dbl d) /\ is_finite d = false.
Proof.
  destruct (gain_division_unguarded one_device [0; 100; 200; 200] example_device
              eq_refl eq_refl)
    as (s & seqTime & parTime & Hseq & Hpar & Hrun & Hcout & Hzero).
  exists s. eexists. split; [exact Hrun|]. split; [exact Hcout|].
  apply Hzero. rewrite Hpar. vm_compute. reflexivity.
Defined.

(** ** Exit codes of the programs *)

Lemma no_exit_ret {A} (a : A) : no_exit (ret a).
Proof. intros s code s'. discriminate. Qed.

Lemma no_exit_undefined {A} : no_exit (@undefined A).
Proof. intros s code s'. discriminate. Qed.

Lemma no_exit_bind {A B} (m : M A) (k : A -> M B) :
  no_exit m -> (forall a, no_exit (k a)) -> no_exit (bind m k).
Proof.
  intros Hm Hk s code s'. unfold bind.
  destruct (m s) as [a s1 | c s1 |] eqn:Hr.
  - apply Hk.
  - exfalso. now apply (Hm s c s1).
  - discriminate.
Qed.

Lemma no_exit_read p i : no_exit (read p i).
Proof. intros s code s'. unfold read. now destruct (load _ _ _). Qed.

Lemma no_exit_write p i v : no_exit (write p i v).
Proof. intros s code s'. unfold write. now destruct (store _ _ _ _). Qed.

Lemma no_exit_cout_put i : no_exit (cout_put i).
Proof. intros s code s'. discriminate. Qed.

Lemma no_exit_write_cells vs p : forall i, no_exit (write_cells vs p i).
Proof.
  induction vs as [|v vs IH]; intros i; cbn [write_cells].
  - apply no_exit_ret.
  - apply no_exit_bind; [apply no_exit_write | intros _; apply IH].
Qed.

Lemma no_exit_read_cstring p fuel : forall i, no_exit (Hello.read_cstring fuel p i).
Proof.
  induction fuel as [|fuel IH]; intros i; cbn [Hello.read_cstring].
  - apply no_exit_undefined.
  - apply no_exit_bind; [apply no_exit_read|]. intros c.
    destruct (decide (c = 0)); [apply no_exit_ret|].
    apply no_exit_bind; [apply IH | intros cs; apply no_exit_ret].
Qed.

Lemma no_exit_Buffer_new w ctx size width : no_exit (Buffer_new w ctx size width).
Proof.
  unfold Buffer_new. destruct (buffer_size_ok ctx size); [|apply no_exit_ret].
  apply no_exit_bind; [|intros s0]; intros s code s'; discriminate.
Qed.

Lemma no_exit_enqueue_items queue k args ids : no_exit (enqueue_items queue k args ids).
Proof.
  intros s code s'. unfold enqueue_items.
  destruct queue; [|discriminate]. destruct k; [|discriminate].
  destruct ids; [discriminate|].
  destruct (fetch_args _ _); [|discriminate].
  now destruct (run_items _ _ _).
Qed.

Lemma no_exit_enqueueReadBuffer queue b size width p :
  no_exit (enqueueReadBuffer queue b size width p).
Proof.
  unfold enqueueReadBuffer. apply no_exit_bind; [intros s code s'; discriminate|].
  intros s0. destruct queue; [|apply no_exit_ret]. destruct b; [|apply no_exit_ret].
  destruct (devmem s0 !! _); [|apply no_exit_ret].
  destruct (decide _); [apply no_exit_write_cells | apply no_exit_ret].
Qed.

Lemma no_exit_Buffer_release b : no_exit (Buffer_release b).
Proof. intros s code s'. unfold Buffer_release. now destruct b. Qed.

Lemma returns_only_ret {A} (v : A) : returns_only v (ret v).
Proof. intros s a s' H. now injection H as <- _. Qed.

Lemma returns_only_bind {A B} (v : B) (m : M A) (k : A -> M B) :
  (forall a, returns_only v (k a)) -> returns_only v (bind m k).
Proof.
  intros Hk s b s' H. unfold bind in H.
  destruct (m s) as [a s1 | c s1 |]; try discriminate. now apply (Hk a s1 b s').
Qed.

Lemma exit_code_of (m : M Z) (v : Z) s :
  no_exit m -> returns_only v m -> forall c, exit_code (m s) = Some c -> c = v.
Proof.
  intros Hne Hro c Hc. destruct (m s) as [a s1 | code s1 |] eqn:Hr.
  - injection Hc as <-. now apply (Hro s a s1).
  - exfalso. now apply (Hne s code s1).
  - discriminate.
Qed.

(** The hello-world program. *)
Lemma hello_main_run w s :
  match select_device w with
  | inl f => Hello.main w s = fails_with f s
  | inr dev =>
      if build_failed w
      then Hello.main w s = Exit 1 (complain (build_diagnostics w) s)
      else forall c, exit_code (Hello.main w s) = Some c -> c = 0
  end.
Proof.
  unfold Hello.main.
  pose proof (getDefaultDevice_select w s) as Hsel.
  rewrite <- get_default_device_same in Hsel.
  destruct (select_device w) as [f | dev].
  { now rewrite (bind_Exit _ _ _ _ _ Hsel). }
  rewrite (bind_Ret _ _ _ _ _ Hsel).
  destruct (build_failed w).
  { now rewrite (bind_Exit _ _ _ _ _ (report_build_failure_run w s)). }
  apply exit_code_of.
  - apply no_exit_bind; [apply no_exit_ret|]. intros _.
    apply no_exit_bind; [intros s0 code s'; discriminate|]. intros buf.
    apply no_exit_bind; [apply no_exit_Buffer_new|]. intros memBuf.
    apply no_exit_bind; [apply no_exit_enqueue_items|]. intros _.
    apply no_exit_bind; [apply no_exit_enqueueReadBuffer|]. intros _.
    apply no_exit_bind; [apply no_exit_read_cstring|]. intros text.
    apply no_exit_bind; [apply no_exit_cout_put|]. intros _.
    apply no_exit_bind; [apply no_exit_Buffer_release|]. intros _.
    apply no_exit_ret.
  - do 8 (apply returns_only_bind; intros ?).
    apply returns_only_ret.
Qed.

(** The device-information program. *)
Lemma info_line msg s :
  (cerr_put (Str msg);; cerr_put Endl;; ret (-1)) s
  = Ret (-1) (complain [Str msg; Endl] s).
Proof.
  unfold bind, cerr_put, ret, complain. cbn. now rewrite <- app_assoc.
Qed.

Lemma print_info_run dev s :
  (3 <= length (workItems dev))%nat -> computeUnits dev <> 0 ->
  exists s', DeviceInfo.print_info dev s = Ret tt s'.
Proof.
  intros Hitems Hunits. unfold DeviceInfo.print_info, DeviceInfo.at_index, DeviceInfo.udiv.
  destruct (lookup_lt_is_Some_2 (workItems dev) 0) as [w0 ->]; [lia|].
  destruct (lookup_lt_is_Some_2 (workItems dev) 1) as [w1 ->]; [lia|].
  destruct (lookup_lt_is_Some_2 (workItems dev) 2) as [w2 ->]; [lia|].
  rewrite decide_False by assumption.
  do 4 (erewrite bind_Ret; [|reflexivity]).
  do 20 (erewrite bind_Ret; [|reflexivity];
         cbn [host next_block cout cerr ticks created devmem program context device]).
  eexists. reflexivity.
Qed.

Lemma info_main_run w s :
  match select_device w with
  | inl f => DeviceInfo.main w s = Ret (-1) (complain [Str (diagnostic f); Endl] s)
  | inr dev =>
      (3 <= length (workItems dev))%nat -> computeUnits dev <> 0 ->
      exists s', DeviceInfo.main w s = Ret 0 s'
  end.
Proof.
  unfold DeviceInfo.main, select_device.
  destruct (platforms w) as [|p ps]; [apply info_line|].
  destruct (devices p) as [|dev ds]; [apply info_line|].
  intros Hitems Hunits.
  destruct (print_info_run dev s Hitems Hunits) as (s' & Hrun).
  exists s'. now rewrite (bind_Ret _ _ _ _ _ Hrun).
Qed.

(** The CUDA hello program. *)
Lemma launch_returns blocks : forall s,
  exists s', CudaHello.launch blocks CudaHello.BLOCK_WIDTH CudaHello.hello s = Ret tt s'.
Proof.
  induction blocks as [|blk rest IH]; intros s; cbn [CudaHello.launch].
  - eexists. reflexivity.
  - erewrite bind_Ret; [|reflexivity]. apply IH.
Qed.

Lemma cuda_main_run w s : exists s', CudaHello.main w s = Ret 0 s'.
Proof.
  unfold CudaHello.main.
  destruct (launch_returns (schedule w CudaHello.NUM_BLOCKS) s) as (s1 & Hrun).
  rewrite (bind_Ret _ _ _ _ _ Hrun). eexists. reflexivity.
Qed.

(** C3, as stated, fails: without a platform the device-information
    program returns -1, not 1. *)
Lemma device_info_returns_minus_1 :
  platforms no_platform = [] /\
  exit_code (DeviceInfo.main no_platform (process_start [])) = Some (-1) /\
  exit_code (DeviceInfo.main no_platform (process_start [])) <> Some 1.
Proof.
  split; [reflexivity|].
  pose proof (info_main_run no_platform (process_start [])) as Hrun.
  cbn [select_device no_platform example_world platforms] in Hrun.
  rewrite Hrun. split; [reflexivity | discriminate].
Qed.

(** ** The kernel of add.cl, and the kernel add.cpp asks for *)

Lemma wrap_32_id z : 0 <= z < 2 ^ 31 -> wrap 32 z = z.
Proof.
  intros Hz. unfold wrap.
  change (2 ^ (32 - 1)) with 2147483648. change (2 ^ 32) with 4294967296.
  change (2 ^ 31) with 2147483648 in Hz.
  rewrite Z.mod_small; lia.
Qed.

Lemma add_item (la lb lc : list Z) (id : Z) x y :
  0 <= id < 2 ^ 31 ->
  la !! Z.to_nat id = Some x -> lb !! Z.to_nat id = Some y ->
  (Z.to_nat id < length lc)%nat ->
  add [la; lb; lc] id = Some [la; lb; <[Z.to_nat id := int_add x y]> lc].
Proof.
  intros Hid Hx Hy Hlen. unfold add. rewrite wrap_32_id by assumption.
  rewrite decide_True by lia. rewrite Hx, Hy. now rewrite decide_True.
Qed.

(** Had the work-items of [add] been run, in whatever order and however
    often each, [c] would hold the sums at the indices that ran and its old
    contents elsewhere. *)
Lemma add_items (la lb : list Z) (n : nat) ids : forall lc,
  Z.of_nat n < 2 ^ 31 ->
  length la = n -> length lb = n -> length lc = n ->
  (forall id, id ∈ ids -> 0 <= id < Z.of_nat n) ->
  exists lc',
    run_items add ids [la; lb; lc] = Some [la; lb; lc'] /\
    length lc' = n /\
    forall i : nat, lc' !! i = if decide (Z.of_nat i ∈ ids)
                               then zip_with int_add la lb !! i else lc !! i.
Proof.
  induction ids as [|id ids IH]; intros lc Hn Hla Hlb Hlc Hids.
  - exists lc. split; [reflexivity|]. split; [assumption|].
    intros i. rewrite decide_False; [reflexivity | apply not_elem_of_nil].
  - assert (Hid : 0 <= id < Z.of_nat n) by (apply Hids; left).
    destruct (lookup_lt_is_Some_2 la (Z.to_nat id)) as [x Hx]; [lia|].
    destruct (lookup_lt_is_Some_2 lb (Z.to_nat id)) as [y Hy]; [lia|].
    destruct (IH (<[Z.to_nat id := int_add x y]> lc)) as (lc' & Hrun & Hlen & Hlc');
      try assumption.
    { rewrite length_insert. assumption. }
    { intros j Hj. apply Hids. now right. }
    exists lc'. split; [|split; [assumption|]].
    + cbn [run_items]. rewrite (add_item la lb lc id x y) by (assumption || lia).
      exact Hrun.
    + intros i. rewrite Hlc'.
      destruct (decide (Z.of_nat i ∈ ids)) as [Hin | Hnin].
      * rewrite decide_True; [reflexivity | now right].
      * destruct (decide (Z.of_nat i = id)) as [Heq | Hne].
        -- rewrite decide_True by (rewrite Heq; left).
           subst id. rewrite Nat2Z.id in *.
           rewrite list_lookup_insert_eq by lia.
           rewrite lookup_zip_with, Hx. cbn. now rewrite Hy.
        -- rewrite decide_False.
           ++ apply list_lookup_insert_ne. lia.
           ++ intros Hin. apply elem_of_cons in Hin as [? | ?]; tauto.
Qed.

(** In particular every order in which each index in [0, n) occurs yields
    the sums: the order of the work-items is irrelevant. *)
Lemma add_any_order (la lb lc : list Z) (n : nat) ids :
  Z.of_nat n < 2 ^ 31 ->
  length la = n -> length lb = n -> length lc = n ->
  ids ≡ₚ seqZ 0 (Z.of_nat n) ->
  run_items add ids [la; lb; lc] = Some [la; lb; zip_with int_add la lb].
Proof.
  intros Hn Hla Hlb Hlc Hperm.
  destruct (add_items la lb n ids lc) as (lc' & Hrun & Hlen & Hlc'); try assumption.
  { intros id Hin. rewrite Hperm in Hin. apply elem_of_seqZ in Hin. lia. }
  rewrite Hrun. do 4 f_equal. apply list_eq. intros i. rewrite Hlc'.
  destruct (decide (Z.of_nat i ∈ ids)) as [Hin | Hnin]; [reflexivity|].
  rewrite Hperm in Hnin. rewrite elem_of_seqZ in Hnin.
  rewrite !lookup_ge_None_2; [reflexivity | | lia].
  rewrite length_zip_with. lia.
Qed.

(** ** The scenario of four elements *)

(** C1, on the scenario: the inputs are intact, [seqSumArrays] has stored
    [8,8,8,8] in [cs], and [parSumArrays] has stored in [cp] what its output
    buffer was created with, here zeros: add.cpp asks the program for a
    kernel named "sumArrays", add.cl defines "add", so that nothing runs on
    the device before the buffer is read back. *)
Theorem parSumArrays_differs_from_seqSumArrays :
  Kernel_create (Some add_cl) "sumArrays" = None /\
  block_of (scenario zeroed 1) 0 = Some [3; 3; 3; 3] /\
  block_of (scenario zeroed 1) 1 = Some [5; 5; 5; 5] /\
  block_of (scenario zeroed 1) 2 = Some [8; 8; 8; 8] /\
  block_of (scenario zeroed 1) 3 = Some [0; 0; 0; 0].
Proof. repeat split; vm_compute; reflexivity. Qed.

(** C8, on the scenario: with the same [a] and [b], the first call of
    [parSumArrays] leaves [2,2,2,2] in [cp] and the second [5,5,5,5], when
    the device hands out buffers with different contents: the output is that
    of the uninitialised output buffer, not a function of the inputs. *)
Theorem parSumArrays_repetitions_differ :
  block_of (scenario drifting 1) 0 = block_of (scenario drifting 2) 0 /\
  block_of (scenario drifting 1) 1 = block_of (scenario drifting 2) 1 /\
  block_of (scenario drifting 1) 3 = Some [2; 2; 2; 2] /\
  block_of (scenario drifting 2) 3 = Some [5; 5; 5; 5].
Proof. repeat split; vm_compute; reflexivity. Qed.

(** * Further properties *)

(** ** More on seqSumArrays *)

Lemma overwrite_overwrite cells o n (f : Z -> Z) :
  0 <= o -> (Z.to_nat o + n <= length cells)%nat ->
  overwrite (overwrite cells o 0 n f) o 0 n f = overwrite cells o 0 n f.
Proof.
  intros Ho Hlen. apply list_eq. intros j.
  assert (Hlen' : length (overwrite cells o 0 n f) = length cells).
  { apply overwrite_length; [lia|]. replace (o + 0) with o by lia. exact Hlen. }
  destruct (decide (Z.to_nat o <= j < Z.to_nat o + n)%nat) as [Hin | Hout].
  - replace j with (Z.to_nat (o + (Z.of_nat j - o))) by lia.
    rewrite !overwrite_lookup_in; try reflexivity; try lia.
    all: replace (o + 0) with o by lia; lia.
  - rewrite (overwrite_lookup_out (overwrite cells o 0 n f)); try reflexivity; try lia.
    all: replace (o + 0) with o by lia; lia.
Qed.

Lemma readable_values (h : heap) p N :
  (forall i, 0 <= i < N -> is_Some (load h p i)) ->
  forall i, 0 <= i < N -> load h p i = Some (default 0 (load h p i)).
Proof.
  intros Hr i Hi. destruct (Hr i Hi) as [v ->]. reflexivity.
Qed.

(** X1: calling [seqSumArrays] any positive number of times in a row, as
    the timing loop of [main] does, leaves exactly the state that a single
    call leaves. *)
Theorem seqSumArrays_repeated (a b c : ptr) (N times : Z) (cells : list Z) (s : State) :
  0 < times ->
  (forall i, 0 <= i < N -> is_Some (load (host s) a i)) ->
  (forall i, 0 <= i < N -> is_Some (load (host s) b i)) ->
  host s !! pblock c = Some cells ->
  0 <= poff c -> poff c + N <= Z.of_nat (length cells) ->
  pblock c <> pblock a -> pblock c <> pblock b ->
  repeat_call times (seqSumArrays a b c N) s = seqSumArrays a b c N s.
Proof.
  intros Htimes Ha Hb Hc H0 Hlen Hca Hcb.
  assert (Hpos : exists t, trip_count times = S t).
  { exists (Nat.pred (Z.to_nat times)). unfold trip_count. lia. }
  destruct Hpos as (t & Ht).
  destruct (Z_le_gt_dec N 0) as [HN | HN].
  { rewrite (seqSumArrays_skip a b c N s HN).
    destruct (repeat_call_inv (fun _ s' => s' = s) (seqSumArrays a b c N) times s)
      as (s' & Hrun & ->); [|reflexivity|exact Hrun].
    intros _ s1 ->. exists s. split; [now apply seqSumArrays_skip | reflexivity]. }
  pose (fa := fun i : Z => default 0 (load (host s) a i)).
  pose (fb := fun i : Z => default 0 (load (host s) b i)).
  pose (cells1 := overwrite cells (poff c) 0 (Z.to_nat N) (fun i => int_add (fa i) (fb i))).
  pose (s1 := set_host (<[pblock c := cells1]> (host s)) s).
  assert (Hone : seqSumArrays a b c N s = Ret tt s1).
  { apply (seqSumArrays_run a b c N fa fb cells); try assumption; try lia.
    - now apply (readable_values (host s) a N).
    - now apply (readable_values (host s) b N). }
  assert (Hagain : seqSumArrays a b c N s1 = Ret tt s1).
  { rewrite (seqSumArrays_run a b c N fa fb cells1); try assumption; try lia.
    - unfold cells1 at 1. fold cells1. unfold cells1 at 1.
      rewrite overwrite_overwrite by lia. fold cells1.
      unfold s1. cbn [host set_host]. now rewrite insert_insert_eq, set_host_twice.
    - intros i Hi. unfold s1. cbn [host set_host]. rewrite load_other_block by congruence.
      now apply (readable_values (host s) a N).
    - intros i Hi. unfold s1. cbn [host set_host]. rewrite load_other_block by congruence.
      now apply (readable_values (host s) b N).
    - unfold s1. cbn [host set_host]. apply lookup_insert_eq.
    - unfold cells1. rewrite overwrite_length; lia. }
  rewrite Hone.
  destruct (repeat_call_inv
              (fun (j : nat) s' => match j with O => s' = s | S _ => s' = s1 end)
              (seqSumArrays a b c N) times s) as (s' & Hrun & HP).
  - intros [|j] s2 ->; exists s1; (split; [assumption | reflexivity]).
  - reflexivity.
  - rewrite Ht in HP. now rewrite Hrun, HP.
Qed.

Lemma seqSumArrays_repeated_witness :
  repeat_call 10 (seqSumArrays (Ptr 0 0) (Ptr 1 0) (Ptr 2 0) 4) four_elements
  = seqSumArrays (Ptr 0 0) (Ptr 1 0) (Ptr 2 0) 4 four_elements.
Proof.
  apply (seqSumArrays_repeated (Ptr 0 0) (Ptr 1 0) (Ptr 2 0) 4 10 [0; 0; 0; 0] four_elements).
  - lia.
  - intros i Hi.
    assert (i = 0 \/ i = 1 \/ i = 2 \/ i = 3) as [-> | [-> | [-> | ->]]] by lia;
      eexists; reflexivity.
  - intros i Hi.
    assert (i = 0 \/ i = 1 \/ i = 2 \/ i = 3) as [-> | [-> | [-> | ->]]] by lia;
      eexists; reflexivity.
  - reflexivity.
  - simpl. lia.
  - simpl. lia.
  - discriminate.
  - discriminate.
Defined.

Lemma sum_loop_in_place a b (fa fb : Z -> Z) n : forall k cells s,
  pblock a <> pblock b ->
  host s !! pblock a = Some cells ->
  0 <= poff a + k -> (Z.to_nat (poff a + k) + n <= length cells)%nat ->
  (forall i, k <= i < k + Z.of_nat n -> cells !! Z.to_nat (poff a + i) = Some (fa i)) ->
  (forall i, k <= i < k + Z.of_nat n -> load (host s) b i = Some (fb i)) ->
  for_loop (R := Empty_set) n k
    (fun i => x <- read a i;; y <- read b i;; write a i (int_add x y);; ret None) s
  = Ret None
      (set_host (<[pblock a := overwrite cells (poff a) k n
                                 (fun i => int_add (fa i) (fb i))]> (host s)) s).
Proof.
  induction n as [|n IH]; intros k cells s Hab Hc H0 Hlen Ha Hb.
  - simpl. unfold ret. rewrite overwrite_nothing, insert_id by assumption.
    now rewrite set_host_host.
  - cbn [for_loop].
    rewrite (bind_Ret _ _ s None
               (set_host (<[pblock a := <[Z.to_nat (poff a + k) := int_add (fa k) (fb k)]> cells]>
                            (host s)) s)).
    2:{ rewrite (bind_Ret _ _ s (fa k) s).
        2:{ apply read_Some. unfold load. rewrite Hc, decide_True by lia. apply Ha. lia. }
        rewrite (bind_Ret _ _ s (fb k) s) by (apply read_Some, Hb; lia).
        erewrite bind_Ret; [reflexivity|].
        apply write_Some, store_in_range; [assumption | lia]. }
    rewrite (IH (k + 1) (<[Z.to_nat (poff a + k) := int_add (fa k) (fb k)]> cells)).
    + cbn [host set_host]. rewrite insert_insert_eq, set_host_twice.
      rewrite (overwrite_step cells (poff a) k n (fun i => int_add (fa i) (fb i))) by lia.
      reflexivity.
    + assumption.
    + cbn [host set_host]. apply lookup_insert_eq.
    + lia.
    + rewrite length_insert. lia.
    + intros i Hi. rewrite list_lookup_insert_ne by lia. apply Ha. lia.
    + intros i Hi. cbn [host set_host]. rewrite load_other_block by congruence.
      apply Hb. lia.
Qed.

(** X2: [seqSumArrays(a, b, a, N)], with the first input as the output,
    adds [b] into [a] in place: afterwards [a[i]] is the [int] sum of the old
    [a[i]] and [b[i]] for every [0 <= i < N], and every other cell of host
    memory is as before. *)
Theorem seqSumArrays_in_place (a b : ptr) (N : Z) (cells lb : list Z) (s : State) :
  host s !! pblock a = Some cells ->
  0 <= poff a -> poff a + N <= Z.of_nat (length cells) ->
  holds (host s) b lb -> length lb = Z.to_nat N ->
  pblock a <> pblock b ->
  exists h',
    seqSumArrays a b a N s = Ret tt (set_host h' s) /\
    (forall (i : nat) x y,
       Z.of_nat i < N -> load (host s) a (Z.of_nat i) = Some x -> lb !! i = Some y ->
       load h' a (Z.of_nat i) = Some (int_add x y)) /\
    (forall p j,
       pblock p <> pblock a \/ poff p + j < poff a \/ poff a + N <= poff p + j ->
       load h' p j = load (host s) p j).
Proof.
  intros Hc H0 Hlen Hb Hlb Hab.
  destruct (Z_le_gt_dec N 0) as [HN | HN].
  { exists (host s). rewrite set_host_host. split; [now apply seqSumArrays_skip|].
    split; [|reflexivity]. intros i x y Hi. lia. }
  pose (fa := fun i : Z => cells !!! Z.to_nat (poff a + i)).
  pose (fb := fun i : Z => lb !!! Z.to_nat i).
  eexists. split.
  { unfold seqSumArrays, trip_count. erewrite bind_Ret; [reflexivity|].
    apply (sum_loop_in_place a b fa fb (Z.to_nat N) 0 cells); try assumption; try lia.
    - intros i Hi. apply list_lookup_lookup_total_lt. lia.
    - intros i Hi. replace i with (Z.of_nat (Z.to_nat i)) at 1 by lia.
      apply Hb. apply list_lookup_lookup_total_lt. lia. }
  split.
  - intros i x y Hi Hx Hy. unfold load in Hx |- *.
    rewrite Hc in Hx. rewrite decide_True in Hx by lia.
    rewrite lookup_insert_eq, decide_True by lia.
    rewrite overwrite_lookup_in by lia.
    unfold fa, fb. rewrite Nat2Z.id.
    now rewrite (list_lookup_total_correct _ _ _ Hx), (list_lookup_total_correct _ _ _ Hy).
  - intros p j Hout. unfold load.
    destruct (decide (pblock p = pblock a)) as [Heq | Hne].
    + rewrite Heq, lookup_insert_eq, Hc.
      destruct (decide (0 <= poff p + j)) as [Hj|]; [|reflexivity].
      apply overwrite_lookup_out; lia.
    + now rewrite lookup_insert_ne by congruence.
Qed.

Lemma seqSumArrays_in_place_witness :
  exists h',
    seqSumArrays (Ptr 0 0) (Ptr 1 0) (Ptr 0 0) 4 four_elements
    = Ret tt (set_host h' four_elements) /\
    load h' (Ptr 0 0) 0 = Some 8 /\ load h' (Ptr 1 0) 0 = Some 5.
Proof.
  destruct (seqSumArrays_in_place (Ptr 0 0) (Ptr 1 0) 4 [3; 3; 3; 3] [5; 5; 5; 5] four_elements)
    as (h' & Hrun & Hsum & Hframe).
  - reflexivity.
  - simpl. lia.
  - simpl. lia.
  - intros [|[|[|[|i]]]] x H; try discriminate; injection H as <-; reflexivity.
  - reflexivity.
  - discriminate.
  - exists h'. split; [exact Hrun|]. split.
    + apply (Hsum 0%nat 3 5); [lia | reflexivity | reflexivity].
    + rewrite (Hframe (Ptr 1 0) 0); [reflexivity | left; discriminate].
Defined.

(** ** More on checkEquality *)

(** X3: on readable arrays [checkEquality] decides an equivalence: an
    array equals itself, the answer does not depend on the order of the two
    arguments, and two arrays that both equal a third equal each other. *)
Theorem checkEquality_equivalence (c1 c2 c3 : ptr) (N : Z) (s : State) :
  (forall i, 0 <= i < N -> is_Some (load (host s) c1 i)) ->
  (forall i, 0 <= i < N -> is_Some (load (host s) c2 i)) ->
  (forall i, 0 <= i < N -> is_Some (load (host s) c3 i)) ->
  checkEquality c1 c1 N s = Ret true s /\
  checkEquality c1 c2 N s = checkEquality c2 c1 N s /\
  (checkEquality c1 c2 N s = Ret true s -> checkEquality c2 c3 N s = Ret true s ->
   checkEquality c1 c3 N s = Ret true s).
Proof.
  intros H1 H2 H3.
  destruct (checkEquality_run c1 c1 N s) as (r11 & E11 & I11); [now split; apply H1|].
  destruct (checkEquality_run c1 c2 N s) as (r12 & E12 & I12); [now split; [apply H1 | apply H2]|].
  destruct (checkEquality_run c2 c1 N s) as (r21 & E21 & I21); [now split; [apply H2 | apply H1]|].
  destruct (checkEquality_run c2 c3 N s) as (r23 & E23 & I23); [now split; [apply H2 | apply H3]|].
  destruct (checkEquality_run c1 c3 N s) as (r13 & E13 & I13); [now split; [apply H1 | apply H3]|].
  split; [|split].
  - rewrite E11. f_equal. now apply I11.
  - rewrite E12, E21. f_equal.
    destruct r12, r21; try reflexivity.
    + symmetry. apply I21. intros i Hi. symmetry. now apply I12.
    + apply I12. intros i Hi. symmetry. now apply I21.
  - rewrite E12, E23, E13. intros Ha Hb.
    injection Ha as ->. injection Hb as ->. f_equal. apply I13.
    intros i Hi. transitivity (load (host s) c2 i); [now apply I12 | now apply I23].
Qed.

Lemma checkEquality_equivalence_witness :
  checkEquality (Ptr 2 0) (Ptr 2 0) 4 four_elements = Ret true four_elements /\
  checkEquality (Ptr 2 0) (Ptr 0 0) 4 four_elements
  = checkEquality (Ptr 0 0) (Ptr 2 0) 4 four_elements.
Proof.
  assert (Hread : forall b : nat, (b < 4)%nat ->
            forall i, 0 <= i < 4 -> is_Some (load (host four_elements) (Ptr b 0) i)).
  { intros b Hb i Hi.
    assert (i = 0 \/ i = 1 \/ i = 2 \/ i = 3) as [-> | [-> | [-> | ->]]] by lia;
      destruct b as [|[|[|[|b]]]]; try lia; eexists; reflexivity. }
  destruct (checkEquality_equivalence (Ptr 2 0) (Ptr 0 0) (Ptr 3 0) 4 four_elements)
    as (Hrefl & Hsym & _); try (apply Hread; lia).
  split; assumption.
Defined.

Lemma load_overwritten (h : heap) c cells n (f : Z -> Z) i :
  0 <= poff c -> (Z.to_nat (poff c) + n <= length cells)%nat ->
  0 <= i < Z.of_nat n ->
  load (<[pblock c := overwrite cells (poff c) 0 n f]> h) c i = Some (f i).
Proof.
  intros H0 Hlen Hi. unfold load. rewrite lookup_insert_eq, decide_True by lia.
  apply overwrite_lookup_in; lia.
Qed.

(** X4: two sequential sums of the same inputs into two different output
    arrays compare equal: [seqSumArrays(a, b, c1, N)], then
    [seqSumArrays(a, b, c2, N)], then [checkEquality(c1, c2, N)] returns
    [true]. *)
Theorem seqSumArrays_twice_compare_equal
    (a b c1 c2 : ptr) (N : Z) (cells1 cells2 : list Z) (s : State) :
  (forall i, 0 <= i < N -> is_Some (load (host s) a i)) ->
  (forall i, 0 <= i < N -> is_Some (load (host s) b i)) ->
  host s !! pblock c1 = Some cells1 ->
  0 <= poff c1 -> poff c1 + N <= Z.of_nat (length cells1) ->
  host s !! pblock c2 = Some cells2 ->
  0 <= poff c2 -> poff c2 + N <= Z.of_nat (length cells2) ->
  pblock c1 <> pblock a -> pblock c1 <> pblock b ->
  pblock c2 <> pblock a -> pblock c2 <> pblock b -> pblock c1 <> pblock c2 ->
  exists s',
    (seqSumArrays a b c1 N;; seqSumArrays a b c2 N;; checkEquality c1 c2 N) s
    = Ret true s'.
Proof.
  intros Ha Hb Hc1 H01 Hl1 Hc2 H02 Hl2 H1a H1b H2a H2b H12.
  destruct (Z_le_gt_dec N 0) as [HN | HN].
  { exists s. rewrite (bind_Ret _ _ s tt s) by now apply seqSumArrays_skip.
    rewrite (bind_Ret _ _ s tt s) by now apply seqSumArrays_skip.
    unfold checkEquality, trip_count. replace (Z.to_nat N) with 0%nat by lia. reflexivity. }
  pose (fa := fun i : Z => default 0 (load (host s) a i)).
  pose (fb := fun i : Z => default 0 (load (host s) b i)).
  pose (f := fun i : Z => int_add (fa i) (fb i)).
  pose (s1 := set_host (<[pblock c1 := overwrite cells1 (poff c1) 0 (Z.to_nat N) f]> (host s)) s).
  pose (s2 := set_host (<[pblock c2 := overwrite cells2 (poff c2) 0 (Z.to_nat N) f]> (host s1)) s1).
  assert (Hone : seqSumArrays a b c1 N s = Ret tt s1).
  { apply (seqSumArrays_run a b c1 N fa fb cells1); try assumption; try lia.
    - now apply (readable_values (host s) a N).
    - now apply (readable_values (host s) b N). }
  assert (Htwo : seqSumArrays a b c2 N s1 = Ret tt s2).
  { apply (seqSumArrays_run a b c2 N fa fb cells2); try assumption; try lia.
    - intros i Hi. unfold s1. cbn [host set_host]. rewrite load_other_block by congruence.
      now apply (readable_values (host s) a N).
    - intros i Hi. unfold s1. cbn [host set_host]. rewrite load_other_block by congruence.
      now apply (readable_values (host s) b N).
    - unfold s1. cbn [host set_host]. now rewrite lookup_insert_ne by congruence. }
  rewrite (bind_Ret _ _ _ _ _ Hone), (bind_Ret _ _ _ _ _ Htwo).
  assert (Hv1 : forall i, 0 <= i < N -> load (host s2) c1 i = Some (f i)).
  { intros i Hi. unfold s2, s1. cbn [host set_host].
    rewrite load_other_block by congruence. apply load_overwritten; lia. }
  assert (Hv2 : forall i, 0 <= i < N -> load (host s2) c2 i = Some (f i)).
  { intros i Hi. unfold s2. cbn [host set_host]. apply load_overwritten; lia. }
  destruct (checkEquality_run c1 c2 N s2) as (r & Hrun & Hiff).
  { intros i Hi. rewrite Hv1, Hv2 by assumption. split; eexists; reflexivity. }
  exists s2. rewrite Hrun. f_equal. apply Hiff.
  intros i Hi. now rewrite Hv1, Hv2.
Qed.

Lemma seqSumArrays_twice_compare_equal_witness :
  exists s',
    (seqSumArrays (Ptr 0 0) (Ptr 1 0) (Ptr 2 0) 4;;
     seqSumArrays (Ptr 0 0) (Ptr 1 0) (Ptr 3 0) 4;;
     checkEquality (Ptr 2 0) (Ptr 3 0) 4) four_elements = Ret true s'.
Proof.
  assert (Hread : forall b : nat, (b < 4)%nat ->
            forall i, 0 <= i < 4 -> is_Some (load (host four_elements) (Ptr b 0) i)).
  { intros b Hb i Hi.
    assert (i = 0 \/ i = 1 \/ i = 2 \/ i = 3) as [-> | [-> | [-> | ->]]] by lia;
      destruct b as [|[|[|[|b]]]]; try lia; eexists; reflexivity. }
  apply (seqSumArrays_twice_compare_equal (Ptr 0 0) (Ptr 1 0) (Ptr 2 0) (Ptr 3 0) 4
           [0; 0; 0; 0] [0; 0; 0; 0] four_elements);
    try (apply Hread; lia); try reflexivity; try discriminate; simpl; lia.
Defined.

(** ** More on parSumArrays *)

Lemma release_three (d : gmap nat buffer) (k : nat) (x y z : buffer) :
  (forall j : nat, (k <= j)%nat -> d !! j = None) ->
  delete k (delete (S k) (delete (S (S k)) (<[S (S k) := z]> (<[S k := y]> (<[k := x]> d)))))
  = d.
Proof.
  intros Hfresh. apply map_eq. intros j.
  destruct (decide (j = k)) as [-> | H0].
  { rewrite lookup_delete_eq. symmetry. apply Hfresh. lia. }
  rewrite lookup_delete_ne by congruence.
  destruct (decide (j = S k)) as [-> | H1].
  { rewrite lookup_delete_eq. symmetry. apply Hfresh. lia. }
  rewrite lookup_delete_ne by congruence.
  destruct (decide (j = S (S k))) as [-> | H2].
  { rewrite lookup_delete_eq. symmetry. apply Hfresh. lia. }
  rewrite lookup_delete_ne by congruence.
  now rewrite !lookup_insert_ne by congruence.
Qed.

Lemma parSumArrays_with_buffers (w : World) (a b c : ptr) (N : Z) (cells : list Z)
    (dev : Device) (s : State) :
  context s = Some dev -> device s = Some dev -> program s = Some add_cl ->
  0 < N < 2 ^ 62 -> 4 * N <= maxMemAlloc dev ->
  (forall i, 0 <= i < N -> is_Some (load (host s) a i)) ->
  (forall i, 0 <= i < N -> is_Some (load (host s) b i)) ->
  host s !! pblock c = Some cells ->
  0 <= poff c -> poff c + N <= Z.of_nat (length cells) ->
  handles_fresh s ->
  exists s',
    parSumArrays w a b c N s = Ret tt s' /\
    (forall i, 0 <= i < N -> load (host s') c i = Some (garbage w (created s + 2) i)) /\
    (forall p j,
       pblock p <> pblock c \/ poff p + j < poff c \/ poff c + N <= poff p + j ->
       load (host s') p j = load (host s) p j) /\
    devmem s' = devmem s /\ created s' = (created s + 3)%nat /\ handles_fresh s' /\
    same_process s s'.
Proof.
  intros Hctx Hdev Hprog HN Hmax Ha Hb Hc H0 Hlen Hfresh.
  pose (fa := fun i : Z => default 0 (load (host s) a i)).
  pose (fb := fun i : Z => default 0 (load (host s) b i)).
  destruct (Z_of_nat_complete N) as [n ->]; [lia|].
  unfold parSumArrays.
  rewrite (bind_Ret _ _ s s s) by reflexivity.
  rewrite Hctx, Hdev, Hprog, no_kernel_sumArrays.
  rewrite size_of_ints_cells by lia.
  unfold Buffer_copy, Buffer_new, buffer_size_ok.
  rewrite bool_decide_eq_true_2 by lia.
  replace (4 * Z.of_nat n / 4) with (Z.of_nat n) by (rewrite Z.mul_comm, Z.div_mul; lia).
  rewrite Nat2Z.id.
  erewrite (bind_Ret _ _ s).
  2:{ erewrite bind_Ret; [reflexivity|].
      apply read_cells_run with (f := fa). intros i Hi.
      apply (readable_values (host s) a (Z.of_nat n)); [assumption | lia]. }
  erewrite bind_Ret.
  2:{ erewrite bind_Ret; [reflexivity|].
      apply read_cells_run with (f := fb). intros i Hi.
      apply (readable_values (host s) b (Z.of_nat n)); [assumption | lia]. }
  erewrite bind_Ret.
  2:{ erewrite bind_Ret; reflexivity. }
  cbn [created host devmem context device program next_block cout cerr ticks].
  unfold enqueueNDRangeKernel, enqueue_items, CommandQueue.
  erewrite bind_Ret; [|reflexivity].
  erewrite bind_Ret.
  2:{ unfold enqueueReadBuffer. erewrite bind_Ret; [|reflexivity].
      cbn [created host devmem context device program next_block cout cerr ticks].
      rewrite lookup_insert_eq.
      rewrite decide_True.
      2:{ rewrite length_map, length_seqZ. lia. }
      replace (4 * Z.of_nat n / 4) with (Z.of_nat n) by (rewrite Z.mul_comm, Z.div_mul; lia).
      rewrite take_ge by (rewrite length_map, length_seqZ; lia).
      apply write_cells_run with (cells := cells); cbn [host]; [assumption | lia | lia]. }
  eexists. split; [reflexivity|].
  cbn [created host devmem context device program next_block cout cerr ticks
       set_host set_devmem].
  replace (created s + 2)%nat with (S (S (created s))) by lia.
  assert (Hdm : delete (created s) (delete (S (created s)) (delete (S (S (created s)))
                  (<[S (S (created s)) := map (fun i => wrap (8 * 4)
                                                  (fresh_mem w (S (S (created s))) i))
                                              (seqZ 0 (Z.of_nat n))]>
                     (<[S (created s) := map fb (seqZ 0 (Z.of_nat n))]>
                        (<[created s := map fa (seqZ 0 (Z.of_nat n))]> (devmem s))))))
                = devmem s) by (apply release_three; exact Hfresh).
  split; [|split; [|split; [|split; [|split]]]].
  - intros i Hi. apply (load_overwritten (host s) c cells n); lia.
  - intros p j Hout. unfold load.
    destruct (decide (pblock p = pblock c)) as [Heq | Hne].
    + rewrite Heq, lookup_insert_eq, Hc.
      destruct (decide (0 <= poff p + j)) as [Hj|]; [|reflexivity].
      apply overwrite_lookup_out; lia.
    + now rewrite lookup_insert_ne by congruence.
  - exact Hdm.
  - lia.
  - unfold handles_fresh.
    cbn [created host devmem context device program next_block cout cerr ticks
         set_host set_devmem].
    rewrite Hdm. intros k Hk. apply Hfresh. lia.
  - unfold same_process.
    cbn [created host devmem context device program next_block cout cerr ticks]. tauto.
Qed.

(** X5: after a successful [initializeDevice], a call of [parSumArrays] on
    readable inputs of length [N > 0] and a writable output returns.
    - When the device can allocate [N * sizeof(int)] bytes, what the call
      stores in [c[0..N)] is the contents its output buffer was created with,
      whatever [a] and [b] hold; no other cell of host memory changes,
      nothing is printed, and the three device buffers it creates are
      released again: device memory is as before the call.
    - When the device cannot allocate that many bytes, no buffer is created
      and the call changes nothing at all: [c] keeps its contents. *)
Theorem parSumArrays_effect (w : World) (a b c : ptr) (N : Z) (cells : list Z)
    (dev : Device) (s : State) :
  context s = Some dev -> device s = Some dev -> program s = Some add_cl ->
  0 < N < 2 ^ 62 ->
  (forall i, 0 <= i < N -> is_Some (load (host s) a i)) ->
  (forall i, 0 <= i < N -> is_Some (load (host s) b i)) ->
  host s !! pblock c = Some cells ->
  0 <= poff c -> poff c + N <= Z.of_nat (length cells) ->
  handles_fresh s ->
  (4 * N <= maxMemAlloc dev ->
   exists s',
     parSumArrays w a b c N s = Ret tt s' /\
     (forall i, 0 <= i < N -> load (host s') c i = Some (garbage w (created s + 2) i)) /\
     (forall p j,
        pblock p <> pblock c \/ poff p + j < poff c \/ poff c + N <= poff p + j ->
        load (host s') p j = load (host s) p j) /\
     devmem s' = devmem s /\ created s' = (created s + 3)%nat /\ handles_fresh s' /\
     same_process s s') /\
  (maxMemAlloc dev < 4 * N -> parSumArrays w a b c N s = Ret tt s).
Proof.
  intros Hctx Hdev Hprog HN Ha Hb Hc H0 Hlen Hfresh. split.
  - intros Hmax. now apply (parSumArrays_with_buffers w a b c N cells dev s).
  - intros Hmax. apply parSumArrays_no_buffers; [|now right].
    rewrite Hctx, size_of_ints_cells by lia. unfold buffer_size_ok.
    apply bool_decide_eq_false_2. lia.
Qed.

Lemma four_elements_readable (b : nat) :
  (b < 4)%nat ->
  forall i, 0 <= i < 4 -> is_Some (load (host four_elements_ready) (Ptr b 0) i).
Proof.
  intros Hb i Hi.
  assert (i = 0 \/ i = 1 \/ i = 2 \/ i = 3) as [-> | [-> | [-> | ->]]] by lia;
    destruct b as [|[|[|[|b]]]]; try lia; eexists; reflexivity.
Qed.

Lemma parSumArrays_effect_witness :
  (exists s',
     parSumArrays drifting (Ptr 0 0) (Ptr 1 0) (Ptr 3 0) 4 four_elements_ready = Ret tt s' /\
     load (host s') (Ptr 3 0) 0 = Some 2 /\
     load (host s') (Ptr 0 0) 0 = Some 3 /\
     devmem s' = ∅ /\ created s' = 3%nat) /\
  parSumArrays drifting (Ptr 0 0) (Ptr 1 0) (Ptr 3 0) 4 four_elements_small
  = Ret tt four_elements_small.
Proof.
  split.
  - destruct (parSumArrays_effect drifting (Ptr 0 0) (Ptr 1 0) (Ptr 3 0) 4 [0; 0; 0; 0]
                example_device four_elements_ready) as (Hfits & _);
      try reflexivity; try (apply four_elements_readable; lia); try (simpl; lia).
    { intros k _. reflexivity. }
    destruct Hfits as (s' & Hrun & Hout & Hframe & Hdm & Hcr & _); [simpl; lia|].
    exists s'. split; [exact Hrun|]. split; [|split; [|split]].
    + rewrite (Hout 0) by lia. reflexivity.
    + rewrite (Hframe (Ptr 0 0) 0); [reflexivity | left; discriminate].
    + rewrite Hdm. reflexivity.
    + rewrite Hcr. reflexivity.
  - refine (proj2 (parSumArrays_effect drifting (Ptr 0 0) (Ptr 1 0) (Ptr 3 0) 4 [0; 0; 0; 0]
                     small_device four_elements_small _ _ _ _ _ _ _ _ _ _) _);
      try reflexivity; try (apply four_elements_readable; lia); try (simpl; lia).
    intros k _. reflexivity.
Defined.

(** X6: for [N <= 0] (an [int]) [parSumArrays] changes nothing at all: the
    byte size [N * sizeof(int)] is 0, or wraps to more than the device can
    allocate, no buffer is created, nothing is enqueued and nothing is read
    back; the pointers are never dereferenced. *)
Theorem parSumArrays_nonpositive (w : World) (a b c : ptr) (N : Z) (s : State) :
  - 2 ^ 31 <= N <= 0 ->
  program s = Some add_cl ->
  (forall dev, context s = Some dev -> maxMemAlloc dev < 2 ^ 63) ->
  parSumArrays w a b c N s = Ret tt s.
Proof.
  intros HN Hprog Hmax. apply parSumArrays_no_buffers; [|now right].
  unfold buffer_size_ok. destruct (context s) as [dev|] eqn:Hctx; [|reflexivity].
  apply bool_decide_eq_false_2. specialize (Hmax dev eq_refl).
  unfold size_of_ints. intros [Hpos Hle].
  destruct (decide (N = 0)) as [-> | Hne]; [now rewrite Z.mod_0_l in Hpos|].
  assert (Hmod : (N * 4) mod 2 ^ 64 = N * 4 + 2 ^ 64).
  { symmetry. apply (Z.mod_unique_pos _ _ (-1)); lia. }
  rewrite Hmod in Hle. lia.
Qed.

Lemma parSumArrays_nonpositive_witness :
  parSumArrays one_device (Ptr 0 0) (Ptr 1 0) (Ptr 3 0) 0 four_elements_ready
  = Ret tt four_elements_ready /\
  parSumArrays one_device (Ptr 7 0) (Ptr 8 0) (Ptr 9 0) (-5) four_elements_ready
  = Ret tt four_elements_ready.
Proof.
  split.
  - apply (parSumArrays_nonpositive one_device (Ptr 0 0) (Ptr 1 0) (Ptr 3 0) 0
             four_elements_ready); [lia | reflexivity |].
    intros dev Hdev. injection Hdev as <-. reflexivity.
  - apply (parSumArrays_nonpositive one_device (Ptr 7 0) (Ptr 8 0) (Ptr 9 0) (-5)
             four_elements_ready); [lia | reflexivity |].
    intros dev Hdev. injection Hdev as <-. reflexivity.
Defined.

(** ** More on the kernel of add.cl *)

(** X7: the work-items of [add], run one after another for any list of
    global ids within the buffers (in any order, an id possibly several
    times), leave [a] and [b] as they were; [c] holds the [int] sum at every
    index that ran and its old contents at every other index. When every
    index ran, [c] is the elementwise sum. *)
Theorem add_work_items (la lb lc : list Z) (n : nat) (ids : list Z) :
  Z.of_nat n < 2 ^ 31 ->
  length la = n -> length lb = n -> length lc = n ->
  (forall id, id ∈ ids -> 0 <= id < Z.of_nat n) ->
  exists lc',
    run_items add ids [la; lb; lc] = Some [la; lb; lc'] /\
    length lc' = n /\
    (forall (i : nat) x y, Z.of_nat i ∈ ids -> la !! i = Some x -> lb !! i = Some y ->
       lc' !! i = Some (int_add x y)) /\
    (forall i : nat, Z.of_nat i ∉ ids -> lc' !! i = lc !! i) /\
    ((forall i : nat, (i < n)%nat -> Z.of_nat i ∈ ids) -> lc' = zip_with int_add la lb).
Proof.
  intros Hn Hla Hlb Hlc Hids.
  destruct (add_items la lb n ids lc Hn Hla Hlb Hlc Hids) as (lc' & Hrun & Hlen & Hlc').
  exists lc'. split; [exact Hrun|]. split; [exact Hlen|]. split; [|split].
  - intros i x y Hin Hx Hy. rewrite Hlc', decide_True by assumption.
    rewrite lookup_zip_with, Hx. cbn. now rewrite Hy.
  - intros i Hnin. now rewrite Hlc', decide_False.
  - intros Hall. apply list_eq. intros i. rewrite Hlc'.
    destruct (decide (Z.of_nat i ∈ ids)) as [Hin | Hnin]; [reflexivity|].
    assert (n <= i)%nat.
    { destruct (decide (i < n)%nat) as [Hi|]; [|lia]. exfalso. now apply Hnin, Hall. }
    rewrite !lookup_ge_None_2; [reflexivity | | lia].
    rewrite length_zip_with. lia.
Qed.

Lemma add_work_items_witness :
  exists lc',
    run_items add [2; 0; 2] [[1; 2; 3]; [10; 20; 30]; [7; 7; 7]]
    = Some [[1; 2; 3]; [10; 20; 30]; lc'] /\
    lc' !! 0%nat = Some 11 /\ lc' !! 1%nat = Some 7 /\ lc' !! 2%nat = Some 33.
Proof.
  destruct (add_work_items [1; 2; 3] [10; 20; 30] [7; 7; 7] 3 [2; 0; 2])
    as (lc' & Hrun & _ & Hsum & Hold & _); try reflexivity.
  - intros id Hid. repeat (apply elem_of_cons in Hid as [-> | Hid]; [lia|]).
    now apply elem_of_nil in Hid.
  - exists lc'. split; [exact Hrun|]. split; [|split].
    + apply (Hsum 0%nat 1 10); [|reflexivity|reflexivity]. right. left.
    + rewrite (Hold 1%nat); [reflexivity|].
      intros Hin. repeat (apply elem_of_cons in Hin as [Hin | Hin]; [lia|]).
      now apply elem_of_nil in Hin.
    + apply (Hsum 2%nat 3 30); [|reflexivity|reflexivity]. left.
Defined.

(** ** More on [main] *)

(** X8: when a device is found but the kernel file does not build, [main]
    exits with status 1; the diagnostic stream holds the build status and the
    build log, nothing has been printed on the standard output, the
    sequential sums are in [cs], [cp] still holds its zeros and no device
    buffer was created. *)
Theorem main_build_failure (w : World) (clk : list Z) (dev : Device) :
  select_device w = inr dev -> build_status w <> CL_BUILD_SUCCESS ->
  exists s,
    main w (process_start clk) = Exit 1 s /\
    cerr s = [ Str ("build status:" +:+ TAB +:+ " "); Int (build_info_status w); Endl;
               Str ("build log   :" +:+ TAB +:+ " "); Str (build_log w); Endl ] /\
    cout s = [] /\
    host s !! 2%nat = Some (replicate (Z.to_nat ARRAYS_DIM) 8) /\
    host s !! 3%nat = Some (replicate (Z.to_nat ARRAYS_DIM) 0) /\
    created s = 0%nat /\ devmem s = ∅.
Proof.
  intros Hsel Hbuild.
  pose proof (benchmark_run w ARRAYS_DIM clk ARRAYS_DIM_range) as Hrun.
  rewrite Hsel in Hrun. unfold build_failed in Hrun.
  rewrite bool_decide_eq_true_2 in Hrun by assumption.
  eexists. split; [exact Hrun|].
  generalize (Z.to_nat ARRAYS_DIM) as n. intros n.
  destruct (after_seq_state n clk) as (Hcs & Hcp & Hco & Hcr & Hdm).
  cbn [complain with_globals host cout cerr created devmem].
  rewrite Hco. cbn [after_seq cerr app]. unfold build_diagnostics. tauto.
Qed.

Lemma main_build_failure_witness :
  exists s,
    main (example_world [ {| devices := [example_device] |} ] (-11) (fun _ _ => 0))
      (process_start []) = Exit 1 s /\
    cerr s = [ Str ("build status:" +:+ TAB +:+ " "); Int (-2); Endl;
               Str ("build log   :" +:+ TAB +:+ " "); Str "error"; Endl ] /\
    cout s = [].
Proof.
  destruct (main_build_failure
              (example_world [ {| devices := [example_device] |} ] (-11) (fun _ _ => 0))
              [] example_device) as (s & Hrun & Hcerr & Hcout & _).
  - reflexivity.
  - discriminate.
  - exists s. split; [exact Hrun|]. split; [exact Hcerr | exact Hcout].
Defined.

(** X9: when a device is found and the kernel file builds, [main] returns
    0 with an empty diagnostic stream and [a], [b] intact; [cs] holds the
    sums; [cp] holds what the last output buffer was created with (or its
    zeros, when no buffer of that size can be created); and the standard
    output is the report: the verdict (SUCCESS! exactly when that [cp] is
    all 8), [a[0] = 3], [b[0] = 5], [cp[0]], the two mean times and the
    gain. *)
Theorem main_report (w : World) (clk : list Z) (dev : Device) :
  select_device w = inr dev -> build_status w = CL_BUILD_SUCCESS ->
  exists s cp,
    main w (process_start clk) = Ret 0 s /\
    cp = par_result w dev (Z.to_nat ARRAYS_DIM) /\
    host s !! 0%nat = Some (replicate (Z.to_nat ARRAYS_DIM) 3) /\
    host s !! 1%nat = Some (replicate (Z.to_nat ARRAYS_DIM) 5) /\
    host s !! 2%nat = Some (replicate (Z.to_nat ARRAYS_DIM) 8) /\
    host s !! 3%nat = Some cp /\
    cout s = report (bool_decide (cp = replicate (Z.to_nat ARRAYS_DIM) 8))
               (cp !!! 0%nat)
               (mean_time w (reading clk) (reading (tail clk)))
               (mean_time w (reading (tail (tail clk)))
                  (reading (tail (tail (tail clk))))) /\
    cerr s = [].
Proof.
  intros Hsel Hbuild.
  destruct (main_completes w clk dev Hsel Hbuild) as (s & Hrun & Hhost & Hcout & Hcerr).
  exists s. eexists. split; [exact Hrun|]. split; [reflexivity|]. clear Hrun.
  revert Hhost Hcout. generalize (Z.to_nat ARRAYS_DIM) as n. intros n Hhost Hcout.
  rewrite Hhost. cbn [after_seq host]. unfold input_heap.
  split; [|split; [|split; [|split; [|split]]]]; try assumption.
  - rewrite !lookup_insert_ne by lia. apply lookup_insert_eq.
  - rewrite !lookup_insert_ne by lia. apply lookup_insert_eq.
  - rewrite !lookup_insert_ne by lia. apply lookup_insert_eq.
  - apply lookup_insert_eq.
Qed.

Lemma main_report_witness :
  exists s cp,
    main one_device (process_start [0; 100; 200; 300]) = Ret 0 s /\
    host s !! 3%nat = Some cp /\
    cout s !! 1%nat
    = Some (Str (if bool_decide (cp = replicate (Z.to_nat ARRAYS_DIM) 8)
                 then "SUCCESS!" else "FAILED!")) /\
    cerr s = [].
Proof.
  destruct (main_report one_device [0; 100; 200; 300] example_device eq_refl eq_refl)
    as (s & cp & Hrun & _ & _ & _ & _ & Hcp & Hcout & Hcerr).
  exists s, cp. split; [exact Hrun|]. split; [exact Hcp|]. split; [|exact Hcerr].
  rewrite Hcout. reflexivity.
Defined.

(** ** More on the timings *)

Lemma long_sub_same t : long_sub t t = 0.
Proof. unfold long_sub. now rewrite Z.sub_diag. Qed.

Lemma ddiv_zero_by (sx : bool) (y : double) :
  is_zero y = false -> is_nan y = false -> is_zero (ddiv (S754_zero sx) y) = true.
Proof. destruct y; intros Hz Hn; try discriminate; reflexivity. Qed.

(** X10: a timed loop whose two clock readings coincide has mean time
    zero, whatever the reading, as soon as [CLOCKS_PER_SEC] converts to a
    double that is a number other than zero; the gain computed from such a
    parallel time is then an infinity or NaN, whatever the sequential time. *)
Theorem mean_time_same_reading (w : World) (t : Z) (seqTime : double) :
  is_zero (double_of_Z (CLOCKS_PER_SEC w)) = false ->
  is_nan (double_of_Z (CLOCKS_PER_SEC w)) = false ->
  is_zero (mean_time w t t) = true /\
  is_finite (performance_gain seqTime (mean_time w t t)) = false.
Proof.
  intros Hz Hn.
  assert (Hzero : is_zero (mean_time w t t) = true).
  { unfold mean_time. rewrite long_sub_same.
    change (dmul (double_of_Z 10000) (double_of_Z 0)) with (S754_zero false).
    pose proof (ddiv_zero_by false (double_of_Z (CLOCKS_PER_SEC w)) Hz Hn) as H1.
    destruct (ddiv (S754_zero false) (double_of_Z (CLOCKS_PER_SEC w))) as [sq | | |];
      try discriminate.
    reflexivity. }
  split; [exact Hzero|]. unfold performance_gain. now apply ddiv_by_zero.
Qed.

Lemma mean_time_same_reading_witness :
  is_zero (mean_time one_device 12345 12345) = true /\
  is_finite (performance_gain (double_of_Z 7) (mean_time one_device 12345 12345)) = false.
Proof.
  apply (mean_time_same_reading one_device 12345 (double_of_Z 7)); reflexivity.
Defined.

(** X11: when the two mean times are the same number (finite, not zero),
    the gain is zero: [100 * (t - t) / t]. *)
Theorem performance_gain_equal_times (sign : bool) (m : positive) (e : Z) :
  performance_gain (S754_finite sign m e) (S754_finite sign m e) = S754_zero sign.
Proof.
  unfold performance_gain, dsub, SFsub. cbv zeta. rewrite Z.sub_diag.
  change (binary_normalize prec emax 0 (Z.min e e) false) with (S754_zero false).
  change (dmul (double_of_Z 100) (S754_zero false)) with (S754_zero false).
  unfold ddiv, SFdiv. now destruct sign.
Qed.

(** ** The output of the device-information program *)

Lemma cout_put_with_cout i s : cout_put i s = Ret tt (with_cout [i] s).
Proof. reflexivity. Qed.

Lemma with_cout_app xs ys s : with_cout ys (with_cout xs s) = with_cout (xs ++ ys) s.
Proof. unfold with_cout. cbn. now rewrite <- app_assoc. Qed.

(** X12: the device-information program reports the first device of the
    first platform and nothing else. When that device lists at least three
    work-item sizes and a non-zero number of compute units, [main] returns 0
    after sending to the standard output the name, vendor and version, the
    first three work-item sizes, the work-group size, the number of compute
    units, the global memory size and the quotient of the local memory size
    by the number of compute units; the diagnostic stream and the rest of the
    state are untouched. When no platform or no device is found, it returns
    -1 after one line on the diagnostic stream, and the standard output is
    untouched. *)
Theorem info_main_output (w : World) (s : State) :
  (forall dev w0 w1 w2 rest,
     select_device w = inr dev ->
     workItems dev = w0 :: w1 :: w2 :: rest -> computeUnits dev <> 0 ->
     DeviceInfo.main w s = Ret 0 (with_cout (info_lines dev w0 w1 w2) s)) /\
  (forall f, select_device w = inl f ->
     DeviceInfo.main w s = Ret (-1) (complain [Str (diagnostic f); Endl] s)).
Proof.
  split.
  - intros dev w0 w1 w2 rest Hsel Hitems Hunits.
    unfold select_device in Hsel. unfold DeviceInfo.main.
    destruct (platforms w) as [|p ps]; [discriminate|].
    destruct (devices p) as [|d ds]; [discriminate|]. injection Hsel as ->.
    unfold DeviceInfo.print_info, DeviceInfo.at_index, DeviceInfo.udiv.
    rewrite Hitems. cbn [lookup list_lookup]. rewrite decide_False by assumption.
    unfold bind at 1.
    do 4 (erewrite bind_Ret; [|reflexivity]).
    do 22 (erewrite bind_Ret; [|apply cout_put_with_cout]; rewrite ?with_cout_app;
           cbn [app]).
    rewrite cout_put_with_cout, with_cout_app. reflexivity.
  - intros f Hsel. pose proof (info_main_run w s) as Hrun. now rewrite Hsel in Hrun.
Qed.

Lemma info_main_output_witness :
  DeviceInfo.main one_device (process_start [])
  = Ret 0 (with_cout (info_lines example_device 1024 1024 64) (process_start [])) /\
  DeviceInfo.main no_device (process_start [])
  = Ret (-1) (complain [Str "no devices found!"; Endl] (process_start [])).
Proof.
  destruct (info_main_output one_device (process_start [])) as (Hok & _).
  destruct (info_main_output no_device (process_start [])) as (_ & Hnone).
  split.
  - apply (Hok example_device 1024 1024 64 []); [reflexivity | reflexivity | discriminate].
  - apply (Hnone NoDeviceAvailable). reflexivity.
Defined.

(** ** The output of the hello-world program *)

Lemma read_cstring_run b (l : list Z) : forall (rest : list Z) fuel (i : nat) s,
  host s !! b = Some l -> drop i l = rest -> (length rest < fuel)%nat ->
  Hello.read_cstring fuel (Ptr b 0) (Z.of_nat i) s
  = match cstring rest with
    | Some text => Ret text s
    | None => Undef
    end.
Proof.
  induction rest as [|c rest IH]; intros fuel i s Hb Hdrop Hfuel;
    (destruct fuel as [|fuel]; [cbn [length] in Hfuel; lia|]);
    cbn [Hello.read_cstring cstring].
  - unfold bind, read, load. cbn [pblock poff]. rewrite Hb, decide_True by lia.
    rewrite Z.add_0_l, Nat2Z.id.
    assert (Hlen : (length l <= i)%nat).
    { apply (f_equal length) in Hdrop. rewrite length_drop in Hdrop. cbn in Hdrop. lia. }
    now rewrite lookup_ge_None_2.
  - assert (Hc : l !! i = Some c).
    { rewrite <- (Nat.add_0_r i), <- lookup_drop, Hdrop. reflexivity. }
    rewrite (bind_Ret _ _ s c s).
    2:{ apply read_Some. now apply load_block with (cells := l). }
    destruct (decide (c = 0)) as [Hz | Hnz]; [reflexivity|].
    replace (Z.of_nat i + 1) with (Z.of_nat (S i)) by lia.
    unfold bind. rewrite (IH fuel (S i) s Hb).
    + now destruct (cstring rest).
    + pose proof (drop_S l c i Hc) as HS. rewrite Hdrop in HS. now injection HS.
    + cbn [length] in Hfuel. lia.
Qed.

Lemma list_as_map (l : list Z) :
  l = map (fun i : Z => l !!! Z.to_nat i) (seqZ 0 (Z.of_nat (length l))).
Proof.
  apply list_eq. intros i. rewrite list_lookup_fmap.
  destruct (decide (i < length l)%nat) as [Hi | Hi].
  - rewrite lookup_seqZ_lt by lia. cbn. rewrite Z.add_0_l, Nat2Z.id.
    now apply list_lookup_lookup_total_lt.
  - rewrite lookup_seqZ_ge by lia. cbn. apply lookup_ge_None_2. lia.
Qed.

Lemma write_cells_block (text cells : list Z) b s :
  host s !! b = Some cells -> length cells = length text ->
  write_cells text (Ptr b 0) 0 s = Ret tt (set_host (<[b := text]> (host s)) s).
Proof.
  intros Hb Hlen. rewrite (list_as_map text) at 1.
  rewrite (write_cells_run (Ptr b 0) (fun i : Z => text !!! Z.to_nat i) (length text) 0 cells);
    cbn [pblock poff]; try assumption; try lia.
  rewrite overwrite_all by assumption. now rewrite <- list_as_map.
Qed.

Lemma hello_main_greeting (w : World) (s : State) (dev : Device) (k : Kernel)
    (text : list Z) :
  select_device w = inr dev -> build_status w = CL_BUILD_SUCCESS ->
  16 <= maxMemAlloc dev ->
  Kernel_create (Some (hello_cl w)) "hello" = Some k ->
  k [map (fun i => wrap 8 (fresh_mem w (created s) i)) (seqZ 0 16)] 0 = Some [text] ->
  length text = 16%nat ->
  handles_fresh s ->
  Hello.main w s
  = match cstring text with
    | Some greeting =>
        Ret 0 {| host := <[next_block s := text]> (host s);
                 next_block := S (next_block s);
                 cout := cout s ++ [Chars greeting]; cerr := cerr s;
                 ticks := ticks s; created := S (created s); devmem := devmem s;
                 program := program s; context := context s; device := device s |}
    | None => Undef
    end.
Proof.
  intros Hsel Hbuild Hmax Hk Hrun Hlen Hfresh.
  unfold Hello.main.
  pose proof (getDefaultDevice_select w s) as Hdev.
  rewrite <- get_default_device_same, Hsel in Hdev.
  rewrite (bind_Ret _ _ _ _ _ Hdev).
  unfold build_failed. rewrite bool_decide_eq_false_2 by tauto.
  rewrite Hk.
  erewrite bind_Ret; [|reflexivity].
  erewrite bind_Ret; [|reflexivity].
  unfold Buffer_new, buffer_size_ok. rewrite bool_decide_eq_true_2 by lia.
  erewrite bind_Ret; [|erewrite bind_Ret; reflexivity].
  cbn [created host devmem context device program next_block cout cerr ticks].
  change (8 * 1) with 8. change (16 `div` 1) with 16.
  erewrite bind_Ret.
  2:{ unfold enqueueTask, enqueue_items, CommandQueue, fetch_args.
      cbn [created host devmem context device program next_block cout cerr ticks mapM].
      rewrite lookup_insert_eq. cbn [mbind option_bind mret option_ret run_items].
      rewrite Hrun. cbn [store_args]. reflexivity. }
  unfold set_devmem.
  cbn [created host devmem context device program next_block cout cerr ticks].
  rewrite insert_insert_eq.
  erewrite bind_Ret.
  2:{ unfold enqueueReadBuffer, CommandQueue. erewrite bind_Ret; [|reflexivity].
      cbn [created host devmem context device program next_block cout cerr ticks].
      rewrite lookup_insert_eq, decide_True by (rewrite Hlen; lia).
      change (Z.to_nat (16 `div` 1)) with 16%nat.
      rewrite take_ge by lia.
      apply write_cells_block
        with (cells := map (fun i : Z => wrap 8 (stack_mem w i)) (seqZ 0 16)).
      - cbn [host]. apply lookup_insert_eq.
      - rewrite Hlen. reflexivity. }
  unfold set_host.
  cbn [created host devmem context device program next_block cout cerr ticks].
  rewrite insert_insert_eq.
  match goal with
  | |- bind _ _ ?st = _ =>
      pose proof (read_cstring_run (next_block s) text text 17 0 st) as Hread
  end.
  cbn [host] in Hread. rewrite lookup_insert_eq in Hread.
  specialize (Hread eq_refl eq_refl ltac:(lia)). change (Z.of_nat 0) with 0 in Hread.
  destruct (cstring text) as [greeting|].
  - rewrite (bind_Ret _ _ _ _ _ Hread).
    erewrite bind_Ret; [|reflexivity].
    cbn [created host devmem context device program next_block cout cerr ticks].
    erewrite bind_Ret; [|reflexivity].
    unfold set_devmem, ret.
    cbn [created host devmem context device program next_block cout cerr ticks].
    rewrite delete_insert_eq, delete_id by (apply Hfresh; lia). reflexivity.
  - unfold bind at 1. now rewrite Hread.
Qed.

(** X14: when a device is found, hello.cl builds and its kernel [hello]
    leaves [text] in the 16-byte buffer, the hello-world program copies
    [text] into [buf] and prints it as a C string: if [text] contains a NUL,
    it prints the characters before the first NUL and returns 0, with the
    device buffer released and the diagnostic stream untouched; if [text]
    contains no NUL, printing runs past the end of [buf] and the behaviour is
    undefined. *)
Theorem hello_main_prints (w : World) (s : State) (dev : Device) (k : Kernel)
    (text : list Z) :
  select_device w = inr dev -> build_status w = CL_BUILD_SUCCESS ->
  16 <= maxMemAlloc dev ->
  Kernel_create (Some (hello_cl w)) "hello" = Some k ->
  k [map (fun i => wrap 8 (fresh_mem w (created s) i)) (seqZ 0 16)] 0 = Some [text] ->
  length text = 16%nat ->
  handles_fresh s ->
  Hello.main w s
  = match cstring text with
    | Some greeting =>
        Ret 0 {| host := <[next_block s := text]> (host s);
                 next_block := S (next_block s);
                 cout := cout s ++ [Chars greeting]; cerr := cerr s;
                 ticks := ticks s; created := S (created s); devmem := devmem s;
                 program := program s; context := context s; device := device s |}
    | None => Undef
    end.
Proof. exact (hello_main_greeting w s dev k text). Qed.

Lemma hello_main_prints_witness :
  exists s,
    Hello.main
      {| platforms := [ {| devices := [example_device] |} ]; build_status := 0;
         build_info_status := 0; build_log := ""; fresh_mem := fun _ _ => 0;
         schedule := fun N => seqZ 0 N; stack_mem := fun _ => 0;
         hello_cl := [ ("hello"%string,
                        fun _ _ => Some [[72; 105; 33; 10; 0; 0; 0; 0;
                                          0; 0; 0; 0; 0; 0; 0; 0]]) ];
         CLOCKS_PER_SEC := 1000000 |}
      (process_start []) = Ret 0 s /\
    cout s = [Chars [72; 105; 33; 10]] /\ devmem s = ∅.
Proof.
  eexists. split.
  - apply (hello_main_prints _ (process_start []) example_device
             (fun _ _ => Some [[72; 105; 33; 10; 0; 0; 0; 0; 0; 0; 0; 0; 0; 0; 0; 0]])
             [72; 105; 33; 10; 0; 0; 0; 0; 0; 0; 0; 0; 0; 0; 0; 0]);
      try reflexivity.
    + cbn. lia.
    + intros k _. reflexivity.
  - split; reflexivity.
Defined.

(** X15: when no platform or no device is found, or hello.cl does not
    build, the hello-world program exits with status 1 having done nothing
    but write its diagnostics: one line for a failed selection, the build
    status and the build log for a failed build. No buffer is created, no
    kernel is run and nothing is printed on the standard output. *)
Theorem hello_main_failures (w : World) (s : State) :
  (forall f, select_device w = inl f ->
     Hello.main w s = Exit 1 (complain [Str (diagnostic f); Endl] s)) /\
  (forall dev, select_device w = inr dev -> build_status w <> CL_BUILD_SUCCESS ->
     Hello.main w s = Exit 1 (complain (build_diagnostics w) s)).
Proof.
  pose proof (hello_main_run w s) as Hrun. split.
  - intros f Hsel. rewrite Hsel in Hrun. exact Hrun.
  - intros dev Hsel Hbuild. rewrite Hsel in Hrun. unfold build_failed in Hrun.
    now rewrite bool_decide_eq_true_2 in Hrun by assumption.
Qed.

Lemma hello_main_failures_witness :
  Hello.main no_platform (process_start [])
  = Exit 1 (complain [Str "no platforms found!"; Endl] (process_start [])) /\
  Hello.main (example_world [ {| devices := [example_device] |} ] (-11) (fun _ _ => 0))
    (process_start [])
  = Exit 1 (complain
              [ Str ("build status:" +:+ TAB +:+ " "); Int (-2); Endl;
                Str ("build log   :" +:+ TAB +:+ " "); Str "error"; Endl ]
              (process_start [])).
Proof.
  split.
  - destruct (hello_main_failures no_platform (process_start [])) as (Hsel & _).
    apply (Hsel NoPlatformAvailable). reflexivity.
  - destruct (hello_main_failures
                (example_world [ {| devices := [example_device] |} ] (-11) (fun _ _ => 0))
                (process_start [])) as (_ & Hbuild).
    apply (Hbuild example_device); [reflexivity | discriminate].
Defined.

(** ** Exit codes of all the programs *)

(** C3, amended: the exit status of each program.
    - The vector-add benchmark exits with 1 when no platform or no device is
      found or the kernel file does not build, and returns 0 otherwise.
    - The hello-world program exits with 1 in the same three cases. Otherwise
      0 is the only status it can end with, and it does return 0 when it
      succeeds: the device can allocate the 16-byte buffer and the kernel
      [hello] of hello.cl has left a NUL-terminated text in it.
    - The device-information program builds no kernel; it returns -1 when no
      platform or no device is found, and 0 once it has printed the
      properties of the device (which must report three work-item sizes and
      a non-zero number of compute units).
    - The CUDA hello program returns 0. *)
Theorem exit_codes (w : World) (clk : list Z) :
  exit_code (main w (process_start clk))
  = Some (match select_device w with
          | inl _ => 1
          | inr _ => if build_failed w then 1 else 0
          end) /\
  match select_device w with
  | inl _ => exit_code (Hello.main w (process_start clk)) = Some 1
  | inr dev =>
      if build_failed w
      then exit_code (Hello.main w (process_start clk)) = Some 1
      else
        (forall c, exit_code (Hello.main w (process_start clk)) = Some c -> c = 0) /\
        (forall (k : Kernel) (text greeting : list Z),
           16 <= maxMemAlloc dev ->
           Kernel_create (Some (hello_cl w)) "hello" = Some k ->
           k [map (fun i => wrap 8 (fresh_mem w 0 i)) (seqZ 0 16)] 0 = Some [text] ->
           length text = 16%nat -> cstring text = Some greeting ->
           exit_code (Hello.main w (process_start clk)) = Some 0)
  end /\
  match select_device w with
  | inl _ => exit_code (DeviceInfo.main w (process_start clk)) = Some (-1)
  | inr dev =>
      (3 <= length (workItems dev))%nat -> computeUnits dev <> 0 ->
      exit_code (DeviceInfo.main w (process_start clk)) = Some 0
  end /\
  exit_code (CudaHello.main w (process_start clk)) = Some 0.
Proof.
  pose proof (benchmark_run w ARRAYS_DIM clk ARRAYS_DIM_range) as Hmain.
  pose proof (hello_main_run w (process_start clk)) as Hhello.
  pose proof (info_main_run w (process_start clk)) as Hinfo.
  destruct (cuda_main_run w (process_start clk)) as (sc & Hcuda).
  unfold main. rewrite Hcuda.
  destruct (select_device w) as [f | dev] eqn:Hsel.
  - rewrite Hmain, Hhello, Hinfo. now repeat split.
  - destruct (build_failed w) eqn:Hbuild.
    + rewrite Hmain, Hhello. repeat split.
      intros Hitems Hunits. destruct (Hinfo Hitems Hunits) as (s' & ->). reflexivity.
    + destruct Hmain as (s & -> & _).
      split; [reflexivity|]. split; [split; [exact Hhello|] |split; [|reflexivity]].
      * intros k text greeting Hmax Hk Hrun Hlen Htext.
        unfold build_failed in Hbuild. apply bool_decide_eq_false_1 in Hbuild.
        destruct (decide (build_status w = CL_BUILD_SUCCESS)) as [Hok | Hne];
          [|contradiction].
        rewrite (hello_main_greeting w (process_start clk) dev k text Hsel Hok Hmax Hk Hrun Hlen).
        -- now rewrite Htext.
        -- intros j _. reflexivity.
      * intros Hitems Hunits. destruct (Hinfo Hitems Hunits) as (s' & ->). reflexivity.
Qed.

Lemma exit_codes_witness :
  exit_code (main one_device (process_start [])) = Some 0 /\
  exit_code (Hello.main greeting_world (process_start [])) = Some 0 /\
  exit_code (DeviceInfo.main one_device (process_start [])) = Some 0 /\
  exit_code (CudaHello.main one_device (process_start [])) = Some 0.
Proof.
  destruct (exit_codes one_device []) as (Hmain & _ & Hinfo & Hcuda).
  destruct (exit_codes greeting_world []) as (_ & (_ & Hhello) & _).
  split; [exact Hmain|]. split; [|split; [|exact Hcuda]].
  - apply (Hhello (fun _ _ => Some [[72; 105; 33; 10; 0; 0; 0; 0; 0; 0; 0; 0; 0; 0; 0; 0]])
             [72; 105; 33; 10; 0; 0; 0; 0; 0; 0; 0; 0; 0; 0; 0; 0] [72; 105; 33; 10]);
      try reflexivity. cbn. lia.
  - apply Hinfo; [cbn; lia | discriminate].
Defined.
